(** * jobs/tasks_runner.py: command runner, dependency gate, cluster bootstrap

    A shallow embedding of [src/jobs/tasks_runner.py].  Python [str] values are
    sequences of Unicode code points, [bytes] values are sequences of bytes,
    the keyword dictionary of [_run] is a finite map, and every function that
    touches the logger or the operating system is a computation in a small
    state-and-exception monad over the trace of calls made so far. *)

From Stdlib Require Import ZArith NArith List String Ascii Lia Bool Permutation.
From Stdlib.Strings Require Import Byte.
From stdpp Require Import base option list strings gmap.

Open Scope Z_scope.

(** ** Python values *)

(** A [str] is a sequence of code points, a [bytes] a sequence of bytes. *)
Definition str := list N.
Definition bytes := list byte.

(** A source literal, character by character. *)
Definition lit (s : string) : str :=
  List.map N_of_ascii (list_ascii_of_string s).

(** [s.endswith(suffix)] *)
Fixpoint startswith (s prefix : str) : bool :=
  match prefix, s with
  | [], _ => true
  | _ :: _, [] => false
  | p :: prefix', c :: s' => (p =? c)%N && startswith s' prefix'
  end.

Definition endswith (s suffix : str) : bool :=
  startswith (rev s) (rev suffix).

(** [a < b] and [a <= b] on [str]: lexicographic on code points, a proper
    prefix being smaller. *)
Fixpoint str_ltb (a b : str) : bool :=
  match a, b with
  | _, [] => false
  | [], _ :: _ => true
  | x :: a', y :: b' => (x <? y)%N || ((x =? y)%N && str_ltb a' b')
  end.

Definition str_leb (a b : str) : bool := negb (str_ltb b a).

(** ** [bytes.decode("utf-8")]

    Strict decoding: overlong forms, surrogates, code points above U+10FFFF,
    stray continuation bytes and truncated sequences raise
    [UnicodeDecodeError] ([None] here). *)
Definition in_range (lo hi b : N) : bool := ((lo <=? b) && (b <=? hi))%N.
Definition cont (b : N) : bool := in_range 128 191 b.
Definition low6 (b : N) : N := N.land b 63.

Fixpoint utf8_decode_N (bs : list N) : option str :=
  match bs with
  | [] => Some []
  | b0 :: r0 =>
    if (b0 <? 128)%N then cons b0 <$> utf8_decode_N r0
    else if in_range 194 223 b0 then
      match r0 with
      | b1 :: r1 =>
        if cont b1
        then cons (N.shiftl (N.land b0 31) 6 + low6 b1)%N <$> utf8_decode_N r1
        else None
      | _ => None
      end
    else if in_range 224 239 b0 then
      match r0 with
      | b1 :: b2 :: r2 =>
        if in_range (if (b0 =? 224)%N then 160 else 128)
                    (if (b0 =? 237)%N then 159 else 191) b1 && cont b2
        then cons (N.shiftl (N.land b0 15) 12 + N.shiftl (low6 b1) 6
                   + low6 b2)%N <$> utf8_decode_N r2
        else None
      | _ => None
      end
    else if in_range 240 244 b0 then
      match r0 with
      | b1 :: b2 :: b3 :: r3 =>
        if in_range (if (b0 =? 240)%N then 144 else 128)
                    (if (b0 =? 244)%N then 143 else 191) b1
           && cont b2 && cont b3
        then cons (N.shiftl (N.land b0 7) 18 + N.shiftl (low6 b1) 12
                   + N.shiftl (low6 b2) 6 + low6 b3)%N <$> utf8_decode_N r3
        else None
      | _ => None
      end
    else None
  end.

Definition utf8_decode (b : bytes) : option str :=
  utf8_decode_N (List.map Byte.to_N b).

(** ** [str.strip()]

    The characters Python counts as whitespace ([str.isspace]). *)
Definition is_space (c : N) : bool :=
  in_range 9 13 c || in_range 28 32 c || (c =? 133)%N || (c =? 160)%N
  || (c =? 5760)%N || in_range 8192 8202 c || (c =? 8232)%N || (c =? 8233)%N
  || (c =? 8239)%N || (c =? 8287)%N || (c =? 12288)%N.

Fixpoint lstrip (s : str) : str :=
  match s with
  | c :: s' => if is_space c then lstrip s' else s
  | [] => []
  end.

Definition rstrip (s : str) : str := rev (lstrip (rev s)).
Definition strip (s : str) : str := rstrip (lstrip s).

(** ** Exceptions and the monad *)

Inductive exn :=
| SystemExit (code : Z)
| KeyboardInterrupt
| NameError
| UnboundLocalError
| ImportError
| ModuleNotFoundError
| IndexError
| UnicodeDecodeError
| AttributeError
| CalledProcessError (returncode : Z)
| OSError
| FileNotFoundError
| RuntimeError (tag : string).

(** [isinstance(e, NameError)], [isinstance(e, ImportError)] and
    [isinstance(e, Exception)] along the built-in class hierarchy. *)
Definition is_NameError (e : exn) : bool :=
  match e with NameError | UnboundLocalError => true | _ => false end.
Definition is_ImportError (e : exn) : bool :=
  match e with ImportError | ModuleNotFoundError => true | _ => false end.
Definition is_Exception (e : exn) : bool :=
  match e with SystemExit _ | KeyboardInterrupt => false | _ => true end.

Inductive result (A : Type) :=
| Ok (a : A)
| Raise (e : exn).
Arguments Ok {A} a.
Arguments Raise {A} e.

(** Values bound to keywords of [subprocess.run]. [subprocess.PIPE] is [-1]
    and [subprocess.DEVNULL] is [-3]. *)
Inductive kwval :=
| VNone
| VBool (b : bool)
| VInt (z : Z)
| VStr (s : str).

Definition PIPE : kwval := VInt (-1).
Definition DEVNULL : kwval := VInt (-3).

Definition truthy (v : kwval) : bool :=
  match v with
  | VNone => false
  | VBool b => b
  | VInt z => negb (z =? 0)
  | VStr s => match s with [] => false | _ => true end
  end.

(** What a logger method was called with. The rendering of a record (shell
    quoting, [repr] of a list) is left symbolic. *)
Inductive level := DEBUG | INFO | ERROR.

Inductive message :=
| MsgCommandLine (cmd : list str)
| MsgErrored (cmd : list str) (returncode : Z)
| MsgText (s : str)
| MsgMissingDeps (func_name : string)
| MsgBinaries (missing : list str)
| MsgEnvs (missing : list str)
| MsgConfigStarted
| MsgListing (files : list str)
| MsgWheel (wheel_file : str)
| MsgInitialized
| MsgInitError
| MsgTask (task : str).

(** Calls that leave the process, in the order they were made. *)
Inductive event :=
| ELog (lvl : level) (m : message)
| ERun (cmd : list str) (kwargs : gmap string kwval)
| EOpenDevnull
| ECloseDevnull
| EPopen (cmd : list str) (stdin stdout stderr : kwval) (close_fds : bool)
| EListdir (path : str)
| EImport (module : string)
| EReload
| EUser (tag : string).

Definition World := list event.

Definition M (A : Type) : Type := World -> result A * World.

Definition ret {A} (a : A) : M A := fun w => (Ok a, w).
Definition raise {A} (e : exn) : M A := fun w => (Raise e, w).
Definition bind {A B} (m : M A) (k : A -> M B) : M B :=
  fun w => match m w with
           | (Ok a, w') => k a w'
           | (Raise e, w') => (Raise e, w')
           end.
Definition emit (ev : event) : M unit := fun w => (Ok tt, w ++ [ev]).
Definition log (lvl : level) (m : message) : M unit := emit (ELog lvl m).
Definition lift {A} (r : World -> result A) : M A := fun w => (r w, w).
Definition sys_exit {A} (code : Z) : M A := raise (SystemExit code).

Notation "'let*' x ':=' m 'in' k" := (bind m (fun x => k))
  (at level 10, x name, m at level 100, k at level 200).
Notation "m ;;; k" := (bind m (fun _ => k))
  (at level 100, k at level 200, right associativity).

(** [try: body  except C1: h1  except C2: h2 ...]: the first clause whose
    class matches handles the exception; what a handler raises is not offered
    to its sibling clauses. *)
Fixpoint select_handler {A} (hs : list ((exn -> bool) * (exn -> M A))) (e : exn)
  : option (M A) :=
  match hs with
  | [] => None
  | (c, h) :: hs' => if c e then Some (h e) else select_handler hs' e
  end.

Definition try_except {A} (body : M A) (hs : list ((exn -> bool) * (exn -> M A)))
  : M A :=
  fun w => match body w with
           | (Ok a, w') => (Ok a, w')
           | (Raise e, w') =>
             match select_handler hs e with
             | Some h => h w'
             | None => (Raise e, w')
             end
           end.

(** ** The operating system

    What the process reads from its surroundings, each answer depending on
    the calls made so far. A captured stream of a finished subprocess is a
    [bytes] value in binary mode and a [str] value in text mode (the keywords
    [text], [universal_newlines], [encoding], [errors]), and [None] when it
    was not captured. *)
Inductive stream :=
| SBytes (b : bytes)
| SText (s : str).

(** Truth value of a captured stream: non-empty. *)
Definition stream_truthy (data : stream) : bool :=
  match data with
  | SBytes [] | SText [] => false
  | _ => true
  end.

Record CompletedProcess := {
  returncode : Z;
  stdout : option stream;
  stderr : option stream }.

Definition Handle := N.

Record OS := {
  which : World -> str -> option str;
  environ_get : World -> str -> option str;
  listdir : World -> str -> result (list str);
  subprocess_run : World -> list str -> gmap string kwval -> result CompletedProcess;
  open_devnull : World -> result unit;
  Popen : World -> list str -> result Handle;
  import_module : World -> string -> result unit;
  reload_site : World -> result unit }.

(** ** [_run] *)

Inductive run_value :=
| RText (s : str)
| RHandle (proc : Handle).

(** Lines 88-90. *)
Definition normalize_kwargs (kwargs : gmap string kwval) : gmap string kwval :=
  if truthy (default VNone (kwargs !! "capture_output"%string))
  then <["stderr"%string := PIPE]>
         (<["stdout"%string := PIPE]> (delete "capture_output"%string kwargs))
  else kwargs.

(** [data.decode("utf-8")]: a [str] has no [decode] method. *)
Definition decode (data : stream) : M str :=
  match data with
  | SBytes b =>
    match utf8_decode b with
    | Some t => ret t
    | None => raise UnicodeDecodeError
    end
  | SText _ => raise AttributeError
  end.

(** [with open(os.devnull, 'r+b', 0) as DEVNULL: body] *)
Definition with_devnull {A} (os : OS) (body : M A) : M A :=
  emit EOpenDevnull ;;;
  lift (open_devnull os) ;;;
  fun w => let (r, w') := body w in (r, w' ++ [ECloseDevnull]).

Definition spawn_detached (os : OS) (cmd : list str) : M Handle :=
  emit (EPopen cmd DEVNULL DEVNULL DEVNULL true) ;;;
  lift (fun w => Popen os w cmd).

Definition run_subprocess (os : OS) (cmd : list str) (kwargs : gmap string kwval)
  : M CompletedProcess :=
  emit (ERun cmd kwargs) ;;;
  lift (fun w => subprocess_run os w cmd kwargs).

(** Lines 108-115. *)
Definition on_failure (cmd : list str) (proc : CompletedProcess)
    (error_callback : option (M unit)) (exit_on_error : bool) : M unit :=
  if negb (returncode proc =? 0) then
    log ERROR (MsgErrored cmd (returncode proc)) ;;;
    match stderr proc with
    | Some err =>
      if stream_truthy err
      then let* text := decode err in log ERROR (MsgText (strip text))
      else ret tt
    | None => ret tt
    end ;;;
    match error_callback with
    | Some callback => callback
    | None => ret tt
    end ;;;
    if exit_on_error then sys_exit (returncode proc) else ret tt
  else ret tt.

(** Lines 117-119. *)
Definition captured_stdout (proc : CompletedProcess) : M run_value :=
  match stdout proc with
  | Some out =>
    if stream_truthy out
    then let* text := decode out in ret (RText (strip text))
    else ret (RText [])
  | None => ret (RText [])
  end.

Definition _run (os : OS) (cmd : list str) (detach log_command : bool)
    (error_callback : option (M unit)) (exit_on_error : bool)
    (kwargs : gmap string kwval) : M run_value :=
  let kwargs := normalize_kwargs kwargs in
  (if log_command then log INFO (MsgCommandLine cmd) else ret tt) ;;;
  if detach then
    let* proc := with_devnull os (spawn_detached os cmd) in
    ret (RHandle proc)
  else
    let* proc := run_subprocess os cmd kwargs in
    on_failure cmd proc error_callback exit_on_error ;;;
    captured_stdout proc.

(** [_run(cmd=cmd)], every option at its default. *)
Definition _run_default (os : OS) (cmd : list str) : M run_value :=
  _run os cmd false true None true ∅.

(** ** [depend_on] *)

(** A Python function: its [__name__] and what calling it does. *)
Record pyfunc (A R : Type) := {
  func_name : string;
  func_body : A -> M R }.
Arguments func_name {A R} _.
Arguments func_body {A R} _ _.

(** [shutil.which(binary) is None] *)
Definition binary_missing (os : OS) (w : World) (binary : str) : bool :=
  match which os w binary with None => true | Some _ => false end.

(** [not os.environ.get(env)]: unset, or set to the empty string. *)
Definition env_missing (os : OS) (w : World) (env : str) : bool :=
  match environ_get os w env with
  | None | Some [] => true
  | Some (_ :: _) => false
  end.

Definition nonempty {A} (l : list A) : bool :=
  match l with [] => false | _ :: _ => true end.

(** The two lists the wrapper accumulates. *)
Definition missing_binaries (os : OS) (w : World) (binaries : list str) :=
  List.filter (binary_missing os w) binaries.
Definition missing_envs (os : OS) (w : World) (envs : list str) :=
  List.filter (env_missing os w) envs.

(** [wrapper_depend_on], lines 56-74. *)
Definition depend_on {A R} (os : OS) (binaries envs : list str)
    (func : pyfunc A R) : A -> M R :=
  fun args =>
    let* missing_bins := lift (fun w => Ok (missing_binaries os w binaries)) in
    let* missing_vars := lift (fun w => Ok (missing_envs os w envs)) in
    if nonempty missing_bins || nonempty missing_vars then
      log ERROR (MsgMissingDeps (func_name func)) ;;;
      log ERROR (MsgBinaries missing_bins) ;;;
      log ERROR (MsgEnvs missing_vars) ;;;
      sys_exit 1
    else func_body func args.

(** ** [configure_cluster] *)

(** [list.sort()] on names: insertion after the names that are not greater. *)
Fixpoint insert_sorted (x : str) (l : list str) : list str :=
  match l with
  | [] => [x]
  | y :: l' => if str_ltb x y then x :: l else y :: insert_sorted x l'
  end.

Definition list_sort (l : list str) : list str := foldr insert_sorted [] l.

(** A list in ascending order: every name is at most each later one. *)
Inductive ascending : list str -> Prop :=
| ascending_nil : ascending []
| ascending_cons x l :
    Forall (fun y => str_leb x y = true) l -> ascending l -> ascending (x :: l).

(** [l[-1]] *)
Definition index_last {A} (l : list A) : M A :=
  match last l with
  | Some x => ret x
  | None => raise IndexError
  end.

(** [os.path.join(a, b)] on a POSIX system. *)
Definition path_join (a b : str) : str :=
  if startswith b (lit "/") then b
  else if negb (nonempty a) || endswith a (lit "/") then a ++ b
  else a ++ lit "/" ++ b.

Definition os_listdir (os : OS) (path : str) : M (list str) :=
  emit (EListdir path) ;;;
  lift (fun w => listdir os w path).

(** Lines 132-134 on a directory listing. *)
Definition is_wheel (file : str) : bool := endswith file (lit ".whl").

Definition available_wheels (listing : list str) : list str :=
  list_sort (List.filter is_wheel listing).

Definition select_wheel (listing : list str) : option str :=
  last (available_wheels listing).

(** [from module import reload] *)
Definition import_reload (os : OS) (module : string) : M unit :=
  emit (EImport module) ;;;
  lift (fun w => import_module os w module).

(** [reload(site)] with [reload] bound. *)
Definition reload (os : OS) : M unit :=
  emit EReload ;;;
  lift (reload_site os).

(** Lines 143-156. The imports of lines 147 and 151 make [reload] a local
    name of the whole function, so line 144 reads it before it is bound:
    [UnboundLocalError], a subclass of [NameError]. *)
Definition refresh (os : OS) : M unit :=
  try_except (raise UnboundLocalError)
    [ (is_NameError, fun _ =>
         try_except (import_reload os "importlib" ;;; reload os)
           [ (is_ImportError, fun _ => import_reload os "imp" ;;; reload os) ]);
      (is_Exception, fun e => log ERROR MsgInitError ;;; raise e) ].

(** Lines 135-140: the four commands, each at the defaults of [_run]. *)
Definition install (os : OS) (wheel_file : str) : M unit :=
  _run_default os [lit "python"; lit "-V"] ;;;
  _run_default os [lit "pip"; lit "-V"] ;;;
  _run_default os [lit "pip"; lit "install"; lit "-r";
                   lit "requirements/requirements.txt"] ;;;
  log DEBUG (MsgWheel wheel_file) ;;;
  _run_default os [lit "pip"; lit "install"; path_join (lit "./") wheel_file;
                   lit "--upgrade"] ;;;
  ret tt.

(** Lines 130-156, the undecorated function. *)
Definition configure_cluster_body (os : OS) : M unit :=
  log DEBUG MsgConfigStarted ;;;
  let* files := os_listdir os (lit "./") in
  log DEBUG (MsgListing files) ;;;
  let* listing := os_listdir os (lit "./") in
  let* wheel_file := index_last (available_wheels listing) in
  install os wheel_file ;;;
  log INFO MsgInitialized ;;;
  refresh os.

(** Line 126: [@depend_on(binaries=["pip"], envs=[])]. *)
Definition configure_cluster (os : OS) : unit -> M unit :=
  depend_on os [lit "pip"] []
    {| func_name := "configure_cluster";
       func_body := fun _ => configure_cluster_body os |}.

(** ** The dispatcher, lines 159-166 *)

Definition str_eqb (a b : str) : bool := bool_decide (a = b).

Definition main (os : OS) (argv : list str) : M unit :=
  match argv !! 1%nat with
  | None => raise IndexError
  | Some task =>
    log DEBUG (MsgTask task) ;;;
    if str_eqb task (lit "configure") then configure_cluster os tt
    else _run_default os (lit "ingestor" :: drop 1 argv) ;;; ret tt
  end.

(** ** Vocabulary of the statements *)

(** The world after line 93. *)
Definition logged (log_command : bool) (cmd : list str) (w : World) : World :=
  if log_command then w ++ [ELog INFO (MsgCommandLine cmd)] else w.

(** The world in which [subprocess.run] answers. *)
Definition started (log_command : bool) (cmd : list str)
    (kwargs : gmap string kwval) (w : World) : World :=
  logged log_command cmd w ++ [ERun cmd (normalize_kwargs kwargs)].

(** The text of a captured stream as lines 111 and 118 obtain it: the
    empty text for a stream that is absent or empty, the stripped decoding of
    non-empty bytes that are valid UTF-8, and nothing otherwise. *)
Definition stream_text (captured : option stream) : option str :=
  match captured with
  | None => Some []
  | Some data =>
    if stream_truthy data then
      match data with
      | SBytes b => strip <$> utf8_decode b
      | SText _ => None
      end
    else Some []
  end.

(** What is raised where [stream_text] has nothing. *)
Definition stream_error (captured : option stream) : exn :=
  match captured with
  | Some (SText _) => AttributeError
  | _ => UnicodeDecodeError
  end.

(** The records lines 110-111 add, when the captured stderr decodes. *)
Definition stderr_report (proc : CompletedProcess) : option (list event) :=
  match stderr proc with
  | None => Some []
  | Some err =>
    if stream_truthy err
    then (fun text => [ELog ERROR (MsgText text)]) <$> stream_text (Some err)
    else Some []
  end.

(** The text lines 117-119 return, when the captured stdout decodes. *)
Definition stdout_text (proc : CompletedProcess) : option str :=
  stream_text (stdout proc).

(** Lines 112-113. *)
Definition call_back (error_callback : option (M unit)) : M unit :=
  match error_callback with
  | Some callback => callback
  | None => ret tt
  end.

(** Lines 54-76: what the decorator puts in the place of [func].
    [functools.wraps] gives the wrapper the name of the function it wraps. *)
Definition decorator_depend_on {A R} (os : OS) (binaries envs : list str)
    (func : pyfunc A R) : pyfunc A R :=
  {| func_name := func_name func;
     func_body := depend_on os binaries envs func |}.

(** The commands handed to [subprocess.run], in the order of the calls. *)
Fixpoint commands_run (evs : list event) : list (list str) :=
  match evs with
  | [] => []
  | ERun cmd _ :: evs' => cmd :: commands_run evs'
  | _ :: evs' => commands_run evs'
  end.

(** The processes launched with [Popen], in the order of the calls. *)
Fixpoint commands_spawned (evs : list event) : list (list str) :=
  match evs with
  | [] => []
  | EPopen cmd _ _ _ _ :: evs' => cmd :: commands_spawned evs'
  | _ :: evs' => commands_spawned evs'
  end.




(** Calls to a logger method. *)
Definition is_log (ev : event) : bool :=
  match ev with ELog _ _ => true | _ => false end.

(** The greater of two optional names. *)
Definition str_max (a b : option str) : option str :=
  match a, b with
  | Some x, Some y => if str_ltb x y then Some y else Some x
  | Some x, None => Some x
  | None, _ => b
  end.

(** ** Sample surroundings

    Closed operating systems on which the statements below are exercised. *)

Definition finished (code : Z) (out err : option bytes) : CompletedProcess :=
  {| returncode := code; stdout := SBytes <$> out; stderr := SBytes <$> err |}.

(** [subprocess.run] on a program that writes [out] and [err] and exits with
    [code]: a stream is captured when its keyword is [PIPE], handed over as
    text in text mode, and [check] turns a non-zero code into
    [CalledProcessError]. *)
Definition keyword_true (kwargs : gmap string kwval) (key : string) : bool :=
  truthy (default VNone (kwargs !! key)).

Definition text_mode (kwargs : gmap string kwval) : bool :=
  keyword_true kwargs "encoding" || keyword_true kwargs "errors"
  || keyword_true kwargs "text" || keyword_true kwargs "universal_newlines".

Definition captured (kwargs : gmap string kwval) (key : string) (data : bytes)
  : result (option stream) :=
  if match kwargs !! key with Some (VInt z) => z =? -1 | _ => false end then
    if text_mode kwargs then
      match utf8_decode data with
      | Some text => Ok (Some (SText text))
      | None => Raise UnicodeDecodeError
      end
    else Ok (Some (SBytes data))
  else Ok None.

Definition python_run (code : Z) (out err : bytes)
  : World -> list str -> gmap string kwval -> result CompletedProcess :=
  fun _ _ kwargs =>
    match captured kwargs "stdout" out, captured kwargs "stderr" err with
    | Ok o, Ok e =>
      if keyword_true kwargs "check" && negb (code =? 0)
      then Raise (CalledProcessError code)
      else Ok {| returncode := code; stdout := o; stderr := e |}
    | Raise x, _ | _, Raise x => Raise x
    end.

(** [os], but [subprocess.run] answers as [run]. *)
Definition running
    (run : World -> list str -> gmap string kwval -> result CompletedProcess)
    (os : OS) : OS :=
  {| which := which os;
     environ_get := environ_get os;
     listdir := listdir os;
     subprocess_run := run;
     open_devnull := open_devnull os;
     Popen := Popen os;
     import_module := import_module os;
     reload_site := reload_site os |}.

(** Everything is installed, every command exits [0] with nothing captured,
    and the working directory holds [files]. *)
Definition calm_os (files : list str) : OS :=
  {| which := fun _ binary => Some (lit "/usr/bin/" ++ binary);
     environ_get := fun _ _ => None;
     listdir := fun _ _ => Ok files;
     subprocess_run := fun _ _ _ => Ok (finished 0 None None);
     open_devnull := fun _ => Ok tt;
     Popen := fun _ _ => Ok 4242%N;
     import_module := fun _ _ => Ok tt;
     reload_site := fun _ => Ok tt |}.

(** [os], but every command finishes as [proc]. *)
Definition finishing (proc : CompletedProcess) (os : OS) : OS :=
  {| which := which os;
     environ_get := environ_get os;
     listdir := listdir os;
     subprocess_run := fun _ _ _ => Ok proc;
     open_devnull := open_devnull os;
     Popen := Popen os;
     import_module := import_module os;
     reload_site := reload_site os |}.

(** [os], but [reload(site)] answers [r]. *)
Definition reloading (r : World -> result unit) (os : OS) : OS :=
  {| which := which os;
     environ_get := environ_get os;
     listdir := listdir os;
     subprocess_run := subprocess_run os;
     open_devnull := open_devnull os;
     Popen := Popen os;
     import_module := import_module os;
     reload_site := r |}.

(** [os], but nothing is on the search path. *)
Definition bare_path (os : OS) : OS :=
  {| which := fun _ _ => None;
     environ_get := environ_get os;
     listdir := listdir os;
     subprocess_run := subprocess_run os;
     open_devnull := open_devnull os;
     Popen := Popen os;
     import_module := import_module os;
     reload_site := reload_site os |}.

(** [os], but no executable can be launched. *)
Definition unlaunchable (os : OS) : OS :=
  {| which := which os;
     environ_get := environ_get os;
     listdir := listdir os;
     subprocess_run := fun _ _ _ => Raise FileNotFoundError;
     open_devnull := open_devnull os;
     Popen := fun _ _ => Raise FileNotFoundError;
     import_module := import_module os;
     reload_site := reload_site os |}.

(** The success confirmation of line 141. *)
Definition is_confirmation (ev : event) : bool :=
  match ev with ELog INFO MsgInitialized => true | _ => false end.

(** Position of the first event that satisfies [p]. *)
Fixpoint first_index (p : event -> bool) (evs : list event) : option nat :=
  match evs with
  | [] => None
  | ev :: evs' => if p ev then Some O else S <$> first_index p evs'
  end.

(** [reload(site)] calls recorded so far. *)
Definition is_reload (ev : event) : bool :=
  match ev with EReload => true | _ => false end.

Definition reloads (w : World) : nat := length (List.filter is_reload w).

(** Events that are neither the confirmation nor a refresh. *)
Definition quiet (ev : event) : bool :=
  negb (is_confirmation ev) && negb (is_reload ev).

(** A refresh that fails with [ImportError] the first time it is tried and
    succeeds from then on. *)
Definition flaky_reload (w : World) : result unit :=
  if (reloads w <=? 1)%nat then Raise ImportError else Ok tt.

(** A refresh that always fails. *)
Definition broken_reload (w : World) : result unit :=
  Raise (RuntimeError "site").

(** * Properties *)

(** ** The dispatcher *)

(** C10. Invoked with nothing after the program name, the dispatcher raises
    [IndexError] at [sys.argv[1]]: no record is logged, no routing happens and
    no command runs, the world is left as it was. *)
Theorem main_without_task_raises (os : OS) (prog : str) (w : World) :
  main os [prog] w = (Raise IndexError, w).
Proof. reflexivity. Qed.

Lemma str_eqb_eq (a b : str) : str_eqb a b = true <-> a = b.
Proof. unfold str_eqb. apply bool_decide_eq_true. Qed.

Lemma str_eqb_neq (a b : str) : str_eqb a b = false <-> a <> b.
Proof. unfold str_eqb. apply bool_decide_eq_false. Qed.

(** C8. With a first argument present the dispatcher has exactly two
    branches: on ["configure"] it is the gated [configure_cluster]; on any
    other value it is [_run] at its defaults on ["ingestor"] followed by every
    argument, the first included, in order. *)
Theorem main_dispatch (os : OS) (prog task : str) (rest : list str) (w : World) :
  (task = lit "configure" ->
     main os (prog :: task :: rest) w
     = configure_cluster os tt (w ++ [ELog DEBUG (MsgTask task)]))
  /\ (task <> lit "configure" ->
     main os (prog :: task :: rest) w
     = let (r, w') := _run os (lit "ingestor" :: task :: rest) false true None true ∅
                        (w ++ [ELog DEBUG (MsgTask task)]) in
       (match r with Ok _ => Ok tt | Raise e => Raise e end, w')).
Proof.
  split; intros Htask.
  - apply str_eqb_eq in Htask.
    unfold main; cbn [lookup list_lookup]. simpl.
    unfold bind at 1, log at 1, emit at 1. rewrite Htask. reflexivity.
  - apply str_eqb_neq in Htask.
    unfold main. simpl.
    unfold bind at 1, log at 1, emit at 1. rewrite Htask.
    unfold _run_default, bind at 1.
    destruct (_run _ _ _ _ _ _ _ _) as [[v|e] w']; reflexivity.
Qed.

(** [prog configure] at a closed gate, and [prog load --table t]. *)
Lemma main_dispatch_witness :
  main (bare_path (calm_os [])) [lit "prog"; lit "configure"] []
  = configure_cluster (bare_path (calm_os [])) tt
      [ELog DEBUG (MsgTask (lit "configure"))]
  /\ main (calm_os []) [lit "prog"; lit "load"; lit "--table"; lit "t"] []
     = (Ok tt,
        [ELog DEBUG (MsgTask (lit "load"));
         ELog INFO (MsgCommandLine [lit "ingestor"; lit "load"; lit "--table";
                                    lit "t"]);
         ERun [lit "ingestor"; lit "load"; lit "--table"; lit "t"] ∅]).
Proof.
  split.
  - apply (proj1 (main_dispatch (bare_path (calm_os [])) (lit "prog")
                    (lit "configure") [] [])).
    reflexivity.
  - rewrite (proj2 (main_dispatch (calm_os []) (lit "prog") (lit "load")
                      [lit "--table"; lit "t"] [])).
    + reflexivity.
    + vm_compute. discriminate.
Defined.

(** ** Artifact selection *)

Section StrOrder.

Lemma str_ltb_irrefl (a : str) : str_ltb a a = false.
Proof.
  induction a as [|x a IH]; simpl; [reflexivity|].
  rewrite N.ltb_irrefl, N.eqb_refl, IH. reflexivity.
Qed.

Lemma str_ltb_trans (a b c : str) :
  str_ltb a b = true -> str_ltb b c = true -> str_ltb a c = true.
Proof.
  revert b c; induction a as [|x a IH]; intros [|y b] [|z c]; simpl;
    try discriminate; try reflexivity.
  intros Hab Hbc.
  apply orb_true_iff in Hab, Hbc. apply orb_true_iff.
  destruct Hab as [Hxy|Hxy], Hbc as [Hyz|Hyz].
  - left. apply N.ltb_lt in Hxy, Hyz. apply N.ltb_lt. lia.
  - apply andb_true_iff in Hyz as [Hyz _]. apply N.eqb_eq in Hyz. subst.
    left. exact Hxy.
  - apply andb_true_iff in Hxy as [Hxy _]. apply N.eqb_eq in Hxy. subst.
    left. exact Hyz.
  - apply andb_true_iff in Hxy as [Hxy Hab], Hyz as [Hyz Hbc].
    apply N.eqb_eq in Hxy, Hyz. subst. right.
    rewrite N.eqb_refl. simpl. eapply IH; eassumption.
Qed.

Lemma str_ltb_connex (a b : str) :
  str_ltb a b = false -> str_ltb b a = false -> a = b.
Proof.
  revert b; induction a as [|x a IH]; intros [|y b]; simpl;
    try discriminate; try reflexivity.
  intros Hab Hba.
  apply orb_false_iff in Hab as [Hxy Hab], Hba as [Hyx Hba].
  apply N.ltb_ge in Hxy, Hyx.
  assert (x = y) by lia. subst.
  rewrite N.eqb_refl in Hab, Hba. simpl in Hab, Hba.
  f_equal. apply IH; assumption.
Qed.

Lemma str_leb_refl (a : str) : str_leb a a = true.
Proof. unfold str_leb. rewrite str_ltb_irrefl. reflexivity. Qed.

Lemma str_leb_antisym (a b : str) :
  str_leb a b = true -> str_leb b a = true -> a = b.
Proof.
  unfold str_leb. intros Hab Hba.
  apply negb_true_iff in Hab, Hba. apply str_ltb_connex; assumption.
Qed.

Lemma str_leb_trans (a b c : str) :
  str_leb a b = true -> str_leb b c = true -> str_leb a c = true.
Proof.
  unfold str_leb. intros Hab Hbc.
  apply negb_true_iff in Hab, Hbc. apply negb_true_iff.
  destruct (str_ltb c a) eqn:Hca; [|reflexivity].
  destruct (str_ltb b c) eqn:Hbc'.
  - pose proof (str_ltb_trans _ _ _ Hbc' Hca). congruence.
  - pose proof (str_ltb_connex _ _ Hbc' Hbc). subst. congruence.
Qed.

Lemma str_ltb_leb (a b : str) : str_ltb a b = true -> str_leb a b = true.
Proof.
  intros Hab. unfold str_leb. apply negb_true_iff.
  destruct (str_ltb b a) eqn:Hba; [|reflexivity].
  pose proof (str_ltb_trans _ _ _ Hab Hba) as H.
  rewrite str_ltb_irrefl in H. discriminate.
Qed.

End StrOrder.

Section Sorting.

Lemma insert_sorted_perm (x : str) (l : list str) :
  Permutation (insert_sorted x l) (x :: l).
Proof.
  induction l as [|y l IH]; simpl; [reflexivity|].
  destruct (str_ltb x y); [reflexivity|].
  rewrite IH. apply perm_swap.
Qed.

Lemma list_sort_perm (l : list str) : Permutation (list_sort l) l.
Proof.
  induction l as [|x l IH]; simpl; [reflexivity|].
  rewrite insert_sorted_perm. constructor. exact IH.
Qed.

Lemma insert_sorted_ascending (x : str) (l : list str) :
  ascending l -> ascending (insert_sorted x l).
Proof.
  induction 1 as [|y l Hy Hl IH]; simpl.
  - constructor; [constructor|constructor].
  - destruct (str_ltb x y) eqn:Hxy.
    + constructor; [|constructor; assumption].
      apply str_ltb_leb in Hxy. constructor; [exact Hxy|].
      eapply Forall_impl; [exact Hy|]. simpl.
      intros z Hyz. eapply str_leb_trans; eassumption.
    + constructor; [|exact IH].
      rewrite insert_sorted_perm.
      constructor; [|exact Hy].
      unfold str_leb. rewrite Hxy. reflexivity.
Qed.

Lemma list_sort_ascending (l : list str) : ascending (list_sort l).
Proof.
  induction l as [|x l IH]; simpl; [constructor|].
  apply insert_sorted_ascending, IH.
Qed.

(** The last name of an ascending list is its greatest. *)
Lemma ascending_last (l : list str) (m : str) :
  ascending l -> last l = Some m ->
  In m l /\ forall y, In y l -> str_leb y m = true.
Proof.
  induction 1 as [|x l Hx Hl IH]; [discriminate|].
  destruct l as [|x' l'].
  - simpl. intros [= <-]. split; [left; reflexivity|].
    intros y [<-|[]]. apply str_leb_refl.
  - intros Hlast. change (last (x' :: l') = Some m) in Hlast.
    destruct (IH Hlast) as [Hin Hmax]. split; [right; exact Hin|].
    intros y [<-|Hy]; [|apply Hmax, Hy].
    rewrite Forall_forall in Hx. apply Hx.
    apply list_elem_of_In. exact Hin.
Qed.

Lemma filter_perm (f : str -> bool) (l l' : list str) :
  Permutation l l' -> Permutation (List.filter f l) (List.filter f l').
Proof.
  induction 1 as [|x l l' _ IH|x y l|l l' l'' _ IH1 _ IH2]; simpl.
  - reflexivity.
  - destruct (f x); [constructor|]; exact IH.
  - destruct (f x), (f y); try reflexivity. apply perm_swap.
  - etransitivity; eassumption.
Qed.

End Sorting.

Lemma available_wheels_In (listing : list str) (f : str) :
  In f (available_wheels listing) <-> In f listing /\ is_wheel f = true.
Proof.
  unfold available_wheels. rewrite <- filter_In.
  split; apply Permutation_in; [|symmetry]; apply list_sort_perm.
Qed.

Lemma select_wheel_greatest (listing : list str) (chosen : str) :
  select_wheel listing = Some chosen ->
  In chosen listing /\ is_wheel chosen = true
  /\ forall f, In f listing -> is_wheel f = true -> str_leb f chosen = true.
Proof.
  unfold select_wheel. intros Hlast.
  destruct (ascending_last _ _ (list_sort_ascending _) Hlast) as [Hin Hmax].
  apply available_wheels_In in Hin as [Hin Hwheel].
  repeat split; try assumption.
  intros f Hf Hfw. apply Hmax, available_wheels_In. split; assumption.
Qed.

Lemma select_wheel_none (listing : list str) :
  select_wheel listing = None <->
  forall f, In f listing -> is_wheel f = false.
Proof.
  unfold select_wheel. rewrite last_None. split.
  - intros Hnil f Hf. destruct (is_wheel f) eqn:Hw; [|reflexivity].
    assert (In f (available_wheels listing)) as Hin
      by (apply available_wheels_In; split; assumption).
    rewrite Hnil in Hin. destruct Hin.
  - intros Hnone. destruct (available_wheels listing) as [|f l] eqn:Heq;
      [reflexivity|].
    assert (In f (available_wheels listing)) as Hin by (rewrite Heq; left; reflexivity).
    apply available_wheels_In in Hin as [Hin Hw].
    rewrite (Hnone f Hin) in Hw. discriminate.
Qed.

Lemma select_wheel_perm (listing listing' : list str) :
  Permutation listing listing' -> select_wheel listing = select_wheel listing'.
Proof.
  intros Hperm.
  destruct (select_wheel listing) as [f|] eqn:Hf,
           (select_wheel listing') as [f'|] eqn:Hf'.
  - apply select_wheel_greatest in Hf as (Hin & Hw & Hmax).
    apply select_wheel_greatest in Hf' as (Hin' & Hw' & Hmax').
    f_equal. apply str_leb_antisym.
    + apply Hmax'; [|exact Hw]. eapply Permutation_in; eassumption.
    + apply Hmax; [|exact Hw']. eapply Permutation_in; [symmetry|]; eassumption.
  - apply select_wheel_greatest in Hf as (Hin & Hw & _).
    rewrite select_wheel_none in Hf'.
    rewrite (Hf' f) in Hw; [discriminate|].
    eapply Permutation_in; eassumption.
  - apply select_wheel_greatest in Hf' as (Hin & Hw & _).
    rewrite select_wheel_none in Hf.
    rewrite (Hf f') in Hw; [discriminate|].
    eapply Permutation_in; [symmetry|]; eassumption.
  - reflexivity.
Qed.

Lemma startswith_spec (s prefix : str) :
  startswith s prefix = true <-> exists rest, s = prefix ++ rest.
Proof.
  revert s; induction prefix as [|p prefix IH]; intros s; simpl.
  - split; [intros _; exists s; reflexivity|intros _; destruct s; reflexivity].
  - destruct s as [|c s]; [split; [discriminate|intros [rest H]; discriminate]|].
    simpl. rewrite andb_true_iff, N.eqb_eq, IH. split.
    + intros [-> [rest ->]]. exists rest. reflexivity.
    + intros [rest [= -> ->]]. split; [reflexivity|]. exists rest. reflexivity.
Qed.

(** [s.endswith(suffix)] holds exactly of the strings [stem + suffix]. *)
Lemma endswith_spec (s suffix : str) :
  endswith s suffix = true <-> exists stem, s = stem ++ suffix.
Proof.
  unfold endswith. rewrite startswith_spec. split.
  - intros [rest Hrev]. exists (rev rest).
    rewrite <- (rev_involutive s), Hrev, rev_app_distr, rev_involutive.
    reflexivity.
  - intros [stem ->]. exists (rev stem). apply rev_app_distr.
Qed.

(** C6. Artifact selection keeps exactly the names of the listing that end
    in [".whl"], sorts them in ascending lexical order and takes the last.
    So: a file is chosen exactly when some name of the listing ends in
    [".whl"]; the chosen name is in the listing and ends in [".whl"]; no name
    of the listing that ends in [".whl"] is lexically greater, while names
    with another ending play no part however great; the choice depends on
    the set of names only, not on the order in which the directory is
    listed, and selecting again yields the same file. On
    [pkg-1.0.whl, pkg-2.0.whl] it picks [pkg-2.0.whl]; on
    [pkg-9.0.whl, pkg-10.0.whl] it picks [pkg-9.0.whl]. *)
Theorem artifact_selection :
  (forall listing f,
      In f (available_wheels listing)
      <-> In f listing /\ exists stem, f = stem ++ lit ".whl")
  /\ (forall listing,
      ascending (available_wheels listing)
      /\ Permutation (available_wheels listing)
           (List.filter (fun file => endswith file (lit ".whl")) listing)
      /\ select_wheel listing = last (available_wheels listing))
  /\ (forall listing,
      (exists chosen, select_wheel listing = Some chosen)
      <-> exists f stem, In f listing /\ f = stem ++ lit ".whl")
  /\ (forall listing chosen,
      select_wheel listing = Some chosen ->
      In chosen listing
      /\ (exists stem, chosen = stem ++ lit ".whl")
      /\ forall f stem,
          In f listing -> f = stem ++ lit ".whl" ->
          str_leb f chosen = true /\ str_ltb chosen f = false)
  /\ (forall listing listing',
      Permutation listing listing' -> select_wheel listing = select_wheel listing')
  /\ (forall listing chosen,
      select_wheel listing = Some chosen ->
      select_wheel [chosen] = Some chosen
      /\ select_wheel (chosen :: listing) = Some chosen)
  /\ select_wheel [lit "pkg-1.0.whl"; lit "pkg-2.0.whl"] = Some (lit "pkg-2.0.whl")
  /\ select_wheel [lit "pkg-9.0.whl"; lit "pkg-10.0.whl"] = Some (lit "pkg-9.0.whl")
  /\ select_wheel [lit "pkg-10.0.whl"; lit "pkg-9.0.whl"] = Some (lit "pkg-9.0.whl")
  /\ select_wheel [lit "zzz.txt"; lit "pkg-1.0.whl"; lit "pkg-2.0.whl.bak"]
     = Some (lit "pkg-1.0.whl")
  /\ select_wheel [lit "README.md"; lit "whl"; lit "pkg.WHL"] = None.
Proof.
  assert (forall f, is_wheel f = true <-> exists stem, f = stem ++ lit ".whl")
    as Hwheel by (intros f; apply endswith_spec).
  split; [|split; [|split; [|split; [|split; [|split]]]]].
  - intros listing f. rewrite available_wheels_In, Hwheel. reflexivity.
  - intros listing. split; [apply list_sort_ascending|].
    split; [apply list_sort_perm|reflexivity].
  - intros listing. split.
    + intros [chosen Hsel].
      apply select_wheel_greatest in Hsel as (Hin & Hw & _).
      apply Hwheel in Hw as [stem ->]. eauto.
    + intros (f & stem & Hin & Hf).
      destruct (select_wheel listing) as [chosen|] eqn:Hsel; [eauto|].
      rewrite select_wheel_none in Hsel.
      assert (is_wheel f = true) as Hw by (apply Hwheel; eauto).
      rewrite (Hsel f Hin) in Hw. discriminate.
  - intros listing chosen Hsel.
    apply select_wheel_greatest in Hsel as (Hin & Hw & Hmax).
    split; [exact Hin|]. split; [apply Hwheel; exact Hw|].
    intros f stem Hf Hstem.
    assert (str_leb f chosen = true) as Hle
      by (apply Hmax; [exact Hf|apply Hwheel; eauto]).
    split; [exact Hle|]. unfold str_leb in Hle.
    apply negb_true_iff in Hle. exact Hle.
  - apply select_wheel_perm.
  - intros listing chosen Hsel.
    apply select_wheel_greatest in Hsel as (Hin & Hw & Hmax). split.
    + unfold select_wheel, available_wheels. simpl. rewrite Hw. reflexivity.
    + destruct (select_wheel (chosen :: listing)) as [m|] eqn:Hm.
      * apply select_wheel_greatest in Hm as (Hinm & Hwm & Hmaxm).
        f_equal. apply str_leb_antisym.
        -- destruct Hinm as [<-|Hinm]; [apply str_leb_refl|].
           apply Hmax; assumption.
        -- apply Hmaxm; [left; reflexivity|exact Hw].
      * rewrite select_wheel_none in Hm.
        rewrite (Hm chosen) in Hw by (left; reflexivity). discriminate.
  - repeat split; vm_compute; reflexivity.
Qed.

(** The listing chosen from, at a concrete directory: the tarball is
    lexically greatest but is not a wheel, and of the wheels the one named
    [9.0] comes after the one named [10.0]. *)
Lemma artifact_selection_witness :
  select_wheel [lit "pkg-9.0.whl"; lit "pkg-99.tar.gz"; lit "pkg-10.0.whl"]
  = Some (lit "pkg-9.0.whl")
  /\ In (lit "pkg-9.0.whl")
       [lit "pkg-9.0.whl"; lit "pkg-99.tar.gz"; lit "pkg-10.0.whl"]
  /\ str_leb (lit "pkg-10.0.whl") (lit "pkg-9.0.whl") = true.
Proof.
  assert (select_wheel
            [lit "pkg-9.0.whl"; lit "pkg-99.tar.gz"; lit "pkg-10.0.whl"]
          = Some (lit "pkg-9.0.whl")) as Hsel by (vm_compute; reflexivity).
  destruct artifact_selection as (_ & _ & _ & Hgreatest & _).
  destruct (Hgreatest _ _ Hsel) as (Hin & _ & Hmax).
  split; [exact Hsel|]. split; [exact Hin|].
  apply (Hmax (lit "pkg-10.0.whl") (lit "pkg-10.0")).
  - right. right. left. reflexivity.
  - reflexivity.
Defined.

(** ** The dependency gate *)

Lemma nonempty_false {A} (l : list A) : nonempty l = false <-> l = [].
Proof. destruct l; simpl; split; congruence. Qed.

Lemma filter_nil_iff {A} (f : A -> bool) (l : list A) :
  List.filter f l = [] <-> forall x, In x l -> f x = false.
Proof.
  induction l as [|x l IH]; simpl; [tauto|].
  destruct (f x) eqn:Hx; split.
  - discriminate.
  - intros H. rewrite (H x) in Hx by (left; reflexivity). discriminate.
  - intros Hnil y [<-|Hy]; [exact Hx|]. apply IH; assumption.
  - intros H. apply IH. intros y Hy. apply H. right. exact Hy.
Qed.

Lemma depend_on_unfold {A R} (os : OS) (binaries envs : list str)
    (func : pyfunc A R) (args : A) (w : World) :
  depend_on os binaries envs func args w =
  if nonempty (missing_binaries os w binaries) || nonempty (missing_envs os w envs)
  then (Raise (SystemExit 1),
        w ++ [ELog ERROR (MsgMissingDeps (func_name func));
              ELog ERROR (MsgBinaries (missing_binaries os w binaries));
              ELog ERROR (MsgEnvs (missing_envs os w envs))])
  else func_body func args w.
Proof.
  unfold depend_on, bind, lift.
  destruct (nonempty _ || nonempty _); [|reflexivity].
  unfold log, emit, sys_exit, raise. rewrite <- !app_assoc. reflexivity.
Qed.

(** C2. Whatever the declared binaries and environment variables and
    whatever the guarded function: the wrapper collects every declared binary
    that [shutil.which] does not resolve and every declared variable that is
    unset or empty; if some declared item is missing it logs the function's
    name and both complete lists and raises [SystemExit(1)], an outcome in
    which the guarded function has no part; if none is missing the call is
    exactly one call of the guarded function on the original arguments in the
    unchanged world, result and effects passed on as they are. *)
Theorem depend_on_gate {A R} (os : OS) (binaries envs : list str)
    (func : pyfunc A R) (args : A) (w : World) :
  (forall b, In b (missing_binaries os w binaries)
             <-> In b binaries /\ which os w b = None)
  /\ (forall e, In e (missing_envs os w envs)
             <-> In e envs /\ (environ_get os w e = None
                               \/ environ_get os w e = Some []))
  /\ ((exists b, In b binaries /\ which os w b = None)
      \/ (exists e, In e envs /\ (environ_get os w e = None
                                  \/ environ_get os w e = Some [])) ->
      depend_on os binaries envs func args w
      = (Raise (SystemExit 1),
         w ++ [ELog ERROR (MsgMissingDeps (func_name func));
               ELog ERROR (MsgBinaries (missing_binaries os w binaries));
               ELog ERROR (MsgEnvs (missing_envs os w envs))])
      /\ forall body : A -> M R,
          depend_on os binaries envs
            {| func_name := func_name func; func_body := body |} args w
          = depend_on os binaries envs func args w)
  /\ ((forall b, In b binaries -> which os w b <> None)
      /\ (forall e, In e envs -> exists c v, environ_get os w e = Some (c :: v)) ->
      depend_on os binaries envs func args w = func_body func args w).
Proof.
  assert (forall b, In b (missing_binaries os w binaries)
                    <-> In b binaries /\ which os w b = None) as Hb.
  { intros b. unfold missing_binaries. rewrite filter_In. unfold binary_missing.
    destruct (which os w b); intuition congruence. }
  assert (forall e, In e (missing_envs os w envs)
                    <-> In e envs /\ (environ_get os w e = None
                                      \/ environ_get os w e = Some [])) as He.
  { intros e. unfold missing_envs. rewrite filter_In. unfold env_missing.
    destruct (environ_get os w e) as [[|c v]|]; intuition congruence. }
  split; [exact Hb|]. split; [exact He|]. split.
  - intros Hmissing.
    assert (nonempty (missing_binaries os w binaries)
            || nonempty (missing_envs os w envs) = true) as Hgate.
    { destruct Hmissing as [[b Hin]|[e Hin]].
      - apply Hb in Hin. destruct (missing_binaries os w binaries);
          [destruct Hin|reflexivity].
      - apply He in Hin. destruct (missing_envs os w envs);
          [destruct Hin|]. simpl. apply orb_true_r. }
    split; [|intros body]; rewrite !depend_on_unfold, Hgate; reflexivity.
  - intros [Hbin Henv]. rewrite depend_on_unfold.
    assert (missing_binaries os w binaries = []) as ->.
    { apply filter_nil_iff. intros b Hin. unfold binary_missing.
      specialize (Hbin b Hin). destruct (which os w b); congruence. }
    assert (missing_envs os w envs = []) as ->.
    { apply filter_nil_iff. intros e Hin. unfold env_missing.
      destruct (Henv e Hin) as (c & v & ->). reflexivity. }
    reflexivity.
Qed.

(** A gate that fails and a gate that passes. *)
Lemma depend_on_gate_witness :
  depend_on (bare_path (calm_os [])) [lit "__not_a_real_binary__"] []
    {| func_name := "job"; func_body := fun _ : unit => emit (EUser "job ran") |}
    tt []
  = (Raise (SystemExit 1),
     [ELog ERROR (MsgMissingDeps "job");
      ELog ERROR (MsgBinaries [lit "__not_a_real_binary__"]);
      ELog ERROR (MsgEnvs [])])
  /\ depend_on (calm_os []) [lit "pip"] []
       {| func_name := "job"; func_body := fun n : Z => ret (n + 1) |} 41 []
     = (Ok 42, []).
Proof.
  split.
  - refine (proj1 (proj1 (proj2 (proj2 (depend_on_gate (bare_path (calm_os []))
              [lit "__not_a_real_binary__"] []
              {| func_name := "job";
                 func_body := fun _ : unit => emit (EUser "job ran") |} tt [])))
              _)).
    left. exists (lit "__not_a_real_binary__"). split; [left|]; reflexivity.
  - refine (proj2 (proj2 (proj2 (depend_on_gate (calm_os []) [lit "pip"] []
              {| func_name := "job"; func_body := fun n : Z => ret (n + 1) |}
              41 []))) _).
    split.
    + intros b _. discriminate.
    + intros e [].
Defined.

(** ** The command runner *)

Section Run.

Variable os : OS.
Variables (cmd : list str) (log_command : bool).
Variables (error_callback : option (M unit)) (exit_on_error : bool).
Variable kwargs : gmap string kwval.

Lemma captured_stdout_eq (proc : CompletedProcess) (w : World) :
  captured_stdout proc w =
  match stdout_text proc with
  | Some text => (Ok (RText text), w)
  | None => (Raise (stream_error (stdout proc)), w)
  end.
Proof.
  unfold captured_stdout, stdout_text, stream_text.
  destruct (stdout proc) as [out|]; [|reflexivity].
  destruct (stream_truthy out) eqn:Hout; [|reflexivity].
  destruct out as [b|t]; unfold bind, decode; cbn [stream_error].
  - destruct (utf8_decode b); reflexivity.
  - reflexivity.
Qed.

Lemma on_failure_zero (proc : CompletedProcess) (w : World) :
  returncode proc = 0 ->
  on_failure cmd proc error_callback exit_on_error w = (Ok tt, w).
Proof. intros Hrc. unfold on_failure. rewrite Hrc. reflexivity. Qed.

Lemma on_failure_nonzero (proc : CompletedProcess) (w : World) :
  returncode proc <> 0 ->
  on_failure cmd proc error_callback exit_on_error w =
  let w1 := w ++ [ELog ERROR (MsgErrored cmd (returncode proc))] in
  match stderr_report proc with
  | None => (Raise (stream_error (stderr proc)), w1)
  | Some records =>
    match call_back error_callback (w1 ++ records) with
    | (Ok _, w3) =>
      if exit_on_error then (Raise (SystemExit (returncode proc)), w3)
      else (Ok tt, w3)
    | (Raise e, w3) => (Raise e, w3)
    end
  end.
Proof.
  intros Hrc. apply Z.eqb_neq in Hrc.
  unfold on_failure, stderr_report, stream_text, call_back. rewrite Hrc.
  change (negb false) with true. cbv iota.
  unfold bind, log, emit, decode, ret, raise, sys_exit.
  assert (forall w0 : World,
             match
               match error_callback with
               | Some callback => callback
               | None => fun w1 : World => (Ok tt, w1)
               end w0
             with
             | (Ok _, w') =>
               (if exit_on_error
                then fun w1 : World => (Raise (SystemExit (returncode proc)), w1)
                else fun w1 : World => (Ok tt, w1)) w'
             | (Raise e, w') => (Raise e, w')
             end
             = match
                 match error_callback with
                 | Some callback => callback
                 | None => fun w1 : World => (Ok tt, w1)
                 end w0
               with
               | (Ok _, w3) =>
                 if exit_on_error
                 then (Raise (SystemExit (returncode proc)), w3)
                 else (Ok tt, w3)
               | (Raise e, w3) => (Raise e, w3)
               end) as Htail.
  { intros w0. destruct error_callback as [cb|].
    - destruct (cb w0) as [[[]|e] w3]; [|reflexivity].
      destruct exit_on_error; reflexivity.
    - destruct exit_on_error; reflexivity. }
  destruct (stderr proc) as [err|].
  - destruct (stream_truthy err) eqn:Herr.
    + destruct err as [b|t]; cbn [stream_error].
      * destruct (utf8_decode b) as [text|]; [|reflexivity].
        cbn [fmap option_fmap option_map]. apply Htail.
      * reflexivity.
    + rewrite app_nil_r. apply Htail.
  - rewrite app_nil_r. apply Htail.
Qed.

(** The synchronous path of [_run], step by step. *)
Lemma run_sync_unfold (w : World) :
  _run os cmd false log_command error_callback exit_on_error kwargs w =
  let w1 := started log_command cmd kwargs w in
  match subprocess_run os w1 cmd (normalize_kwargs kwargs) with
  | Raise e => (Raise e, w1)
  | Ok proc =>
    match on_failure cmd proc error_callback exit_on_error w1 with
    | (Ok _, w2) => captured_stdout proc w2
    | (Raise e, w2) => (Raise e, w2)
    end
  end.
Proof.
  unfold _run, started, logged, run_subprocess.
  destruct log_command; unfold bind, log, emit, lift, ret; simpl;
    destruct (subprocess_run os _ cmd _); reflexivity.
Qed.

End Run.

Section Strip.

Lemma lstrip_head (s : str) (c : N) :
  head (lstrip s) = Some c -> is_space c = false.
Proof.
  induction s as [|x s IH]; simpl; [discriminate|].
  destruct (is_space x) eqn:Hx; [exact IH|].
  simpl. intros [= <-]. exact Hx.
Qed.

Lemma lstrip_suffix (s : str) : exists spaces, s = spaces ++ lstrip s.
Proof.
  induction s as [|x s [spaces IH]]; simpl; [exists []; reflexivity|].
  destruct (is_space x).
  - exists (x :: spaces). simpl. f_equal. exact IH.
  - exists []. reflexivity.
Qed.

Lemma rstrip_prefix (s : str) : exists spaces, s = rstrip s ++ spaces.
Proof.
  destruct (lstrip_suffix (rev s)) as [spaces Hs].
  exists (rev spaces). unfold rstrip.
  rewrite <- rev_app_distr, <- Hs, rev_involutive. reflexivity.
Qed.

Lemma rstrip_last (s : str) (c : N) :
  last (rstrip s) = Some c -> is_space c = false.
Proof.
  unfold rstrip. destruct (lstrip (rev s)) as [|x l] eqn:Hl; [discriminate|].
  simpl. rewrite last_snoc. intros [= <-].
  apply (lstrip_head (rev s)). rewrite Hl. reflexivity.
Qed.

(** What [strip] returns neither begins nor ends with whitespace. *)
Lemma strip_trimmed (s : str) :
  (forall c, head (strip s) = Some c -> is_space c = false)
  /\ (forall c, last (strip s) = Some c -> is_space c = false).
Proof.
  unfold strip. split; intros c Hc.
  - destruct (rstrip_prefix (lstrip s)) as [spaces Hs].
    apply (lstrip_head s). rewrite Hs.
    destruct (rstrip (lstrip s)); [discriminate|exact Hc].
  - eapply rstrip_last. exact Hc.
Qed.

End Strip.

(** [b"caf\xc3\xa9"], the euro sign and an emoji decode; an overlong form, a
    surrogate, a code point past U+10FFFF and a truncated sequence do not. *)
Example utf8_decode_samples :
  utf8_decode [x63; x61; x66; xc3; xa9] = Some [99; 97; 102; 233]%N
  /\ utf8_decode [xe2; x82; xac] = Some [8364]%N
  /\ utf8_decode [xf0; x9f; x98; x80] = Some [128512]%N
  /\ utf8_decode [xc0; x80] = None
  /\ utf8_decode [xed; xa0; x80] = None
  /\ utf8_decode [xf4; x90; x80; x80] = None
  /\ utf8_decode [x61; xc3] = None
  /\ utf8_decode [xff] = None.
Proof. repeat split; reflexivity. Qed.

(** Spaces inside a text stay; a no-break space at the edge goes. *)
Example strip_samples :
  strip ([160; 9] ++ lit "a b" ++ [10; 32])%N = lit "a b"
  /\ strip (lit "  ") = [].
Proof. split; reflexivity. Qed.

(** When a captured stream has a text at lines 111 and 118: when it is
    absent, empty, or bytes that are valid UTF-8. *)
Lemma stream_text_defined (captured : option stream) :
  (exists text, stream_text captured = Some text)
  <-> (captured = None \/ captured = Some (SBytes [])
       \/ captured = Some (SText [])
       \/ exists out decoded,
            captured = Some (SBytes out) /\ utf8_decode out = Some decoded).
Proof.
  unfold stream_text.
  destruct captured as [[[|b out]|[|c t]]|]; cbn [stream_truthy].
  - split; [auto|eauto].
  - destruct (utf8_decode (b :: out)) as [decoded|] eqn:Hdec;
      cbn [fmap option_fmap option_map]; split.
    + intros _. right. right. right. eauto.
    + eauto.
    + intros [text H]. discriminate.
    + intros [H|[H|[H|(out' & decoded & [= <-] & H)]]]; try discriminate.
      congruence.
  - split; [auto|eauto].
  - split; [intros [text H]; discriminate|].
    intros [H|[H|[H|(out' & decoded & H & _)]]]; discriminate.
  - split; [auto|eauto].
Qed.

Lemma stderr_report_defined (proc : CompletedProcess) :
  (exists records, stderr_report proc = Some records)
  <-> (stderr proc = None \/ stderr proc = Some (SBytes [])
       \/ stderr proc = Some (SText [])
       \/ exists err decoded,
            stderr proc = Some (SBytes err) /\ utf8_decode err = Some decoded).
Proof.
  rewrite <- stream_text_defined. unfold stderr_report.
  destruct (stderr proc) as [err|]; [|split; intros _; eauto].
  destruct (stream_truthy err) eqn:Htruthy.
  - destruct (stream_text (Some err)) as [text|];
      cbn [fmap option_fmap option_map]; split; intros [x H];
      eauto; discriminate.
  - split; intros _; [|eauto]. unfold stream_text. rewrite Htruthy. eauto.
Qed.





(** The detached path of [_run], step by step. *)
Lemma run_detached_unfold (os : OS) (cmd : list str) (log_command : bool)
    (error_callback : option (M unit)) (exit_on_error : bool)
    (kwargs : gmap string kwval) (w : World) :
  _run os cmd true log_command error_callback exit_on_error kwargs w =
  let w1 := logged log_command cmd w ++ [EOpenDevnull] in
  match open_devnull os w1 with
  | Raise e => (Raise e, w1)
  | Ok _ =>
    let w2 := w1 ++ [EPopen cmd DEVNULL DEVNULL DEVNULL true] in
    match Popen os w2 cmd with
    | Ok proc => (Ok (RHandle proc), w2 ++ [ECloseDevnull])
    | Raise e => (Raise e, w2 ++ [ECloseDevnull])
    end
  end.
Proof.
  unfold _run, logged, with_devnull, spawn_detached.
  destruct log_command; unfold bind, log, emit, lift, ret; simpl;
    destruct (open_devnull os _); try reflexivity;
    destruct (Popen os _ cmd); reflexivity.
Qed.

(** C7, as the code has it. A call with [detach] true whose launch succeeds
    (the null device opens and [Popen] returns) makes one [Popen]
    call with stdin, stdout and stderr all [DEVNULL] and [close_fds] true and
    returns the handle [Popen] gave: [subprocess.run] is never called, so
    nothing is waited for, no output is captured and no exit code is read,
    the callback and [exit_on_error] play no part, and the outcome is the
    same however the launched process would finish. *)
Theorem run_detached (os : OS) (cmd : list str) (log_command : bool)
    (error_callback : option (M unit)) (exit_on_error : bool)
    (kwargs : gmap string kwval) (w : World) (proc : Handle) :
  open_devnull os (logged log_command cmd w ++ [EOpenDevnull]) = Ok tt ->
  Popen os ((logged log_command cmd w ++ [EOpenDevnull])
            ++ [EPopen cmd DEVNULL DEVNULL DEVNULL true]) cmd = Ok proc ->
  _run os cmd true log_command error_callback exit_on_error kwargs w
  = (Ok (RHandle proc),
     logged log_command cmd w
     ++ [EOpenDevnull; EPopen cmd DEVNULL DEVNULL DEVNULL true; ECloseDevnull])
  /\ forall outcome : CompletedProcess,
     _run (finishing outcome os) cmd true log_command error_callback
       exit_on_error kwargs w
     = _run os cmd true log_command error_callback exit_on_error kwargs w.
Proof.
  intros Hopen Hspawn. split.
  - rewrite run_detached_unfold. cbv zeta. rewrite Hopen, Hspawn.
    rewrite <- !app_assoc. reflexivity.
  - intros outcome. rewrite !run_detached_unfold. reflexivity.
Qed.

(** A detached launch of a command that would fail. *)
Lemma run_detached_witness :
  _run (calm_os []) [lit "false"] true true None true ∅ []
  = (Ok (RHandle 4242%N),
     [ELog INFO (MsgCommandLine [lit "false"]); EOpenDevnull;
      EPopen [lit "false"] DEVNULL DEVNULL DEVNULL true; ECloseDevnull]).
Proof.
  apply (proj1 (run_detached (calm_os []) [lit "false"] true None true ∅ []
                  4242%N eq_refl eq_refl)).
Defined.

(** C7 as stated fails when the launch itself fails: for a program that
    is not on the search path [Popen] raises [FileNotFoundError], and the
    call passes that error on instead of returning a handle. *)
Lemma run_detached_counterexample :
  _run (unlaunchable (calm_os [])) [lit "no-such-program"] true true None true ∅ []
  = (Raise FileNotFoundError,
     [ELog INFO (MsgCommandLine [lit "no-such-program"]); EOpenDevnull;
      EPopen [lit "no-such-program"] DEVNULL DEVNULL DEVNULL true;
      ECloseDevnull])
  /\ forall proc w,
     _run (unlaunchable (calm_os [])) [lit "no-such-program"] true true None
       true ∅ [] <> (Ok (RHandle proc), w).
Proof.
  split; [reflexivity|]. intros proc w. vm_compute. discriminate.
Qed.

(** Which synchronous calls return: those whose subcommand finishes with
    exit code zero, or non-zero with [exit_on_error] false. *)
Lemma run_sync_returns_only_if (os : OS) (cmd : list str) (log_command : bool)
    (error_callback : option (M unit)) (exit_on_error : bool)
    (kwargs : gmap string kwval) (w : World) (v : run_value) (w' : World) :
  _run os cmd false log_command error_callback exit_on_error kwargs w = (Ok v, w') ->
  exists proc,
    subprocess_run os (started log_command cmd kwargs w) cmd
      (normalize_kwargs kwargs) = Ok proc
    /\ (returncode proc = 0 \/ (returncode proc <> 0 /\ exit_on_error = false)).
Proof.
  rewrite run_sync_unfold. cbv zeta.
  destruct (subprocess_run os _ cmd _) as [proc|e]; [|discriminate].
  intros Hret. exists proc. split; [reflexivity|].
  destruct (Z.eq_dec (returncode proc) 0) as [Hz|Hnz]; [left; exact Hz|right].
  split; [exact Hnz|].
  rewrite on_failure_nonzero in Hret by exact Hnz. cbv zeta in Hret.
  destruct (stderr_report proc); [|discriminate].
  destruct (call_back _ _) as [[[]|e] w3]; [|discriminate].
  destruct exit_on_error; [discriminate|reflexivity].
Qed.

(** What [stream_text] yields: nothing but the empty text for a stream that
    is absent or empty, the stripped decoding for non-empty bytes, and in
    every case a text that neither begins nor ends with whitespace. *)
Lemma stream_text_spec (captured : option stream) (text : str) :
  stream_text captured = Some text ->
  (captured = None \/ captured = Some (SBytes []) \/ captured = Some (SText [])
   -> text = [])
  /\ (forall out, captured = Some (SBytes out) -> out <> [] ->
      exists decoded, utf8_decode out = Some decoded /\ text = strip decoded)
  /\ (forall t, captured = Some (SText t) -> t = [])
  /\ (forall c, head text = Some c -> is_space c = false)
  /\ (forall c, last text = Some c -> is_space c = false).
Proof.
  unfold stream_text. destruct captured as [[[|b out]|[|c t]]|]; cbn [stream_truthy].
  - intros [= <-]. repeat split; try discriminate; try reflexivity.
    intros out [= <-] Hne. congruence.
  - destruct (utf8_decode (b :: out)) as [decoded|] eqn:Hdec; [|discriminate].
    cbn [fmap option_fmap option_map]. intros [= <-]. split.
    { intros [H|[H|H]]; discriminate. }
    split.
    { intros out' [= <-] _. exists decoded. split; [exact Hdec|reflexivity]. }
    split; [intros t'; discriminate|]. apply strip_trimmed.
  - intros [= <-]. repeat split; try discriminate; try reflexivity.
    intros t [= <-]. reflexivity.
  - discriminate.
  - intros [= <-]. repeat split; try discriminate; reflexivity.
Qed.

(** C3, as the code has it. Take a synchronous [_run] in which
    [subprocess.run] returns a finished process that exited zero, or non-zero
    with [exit_on_error] false. Provided the captured stdout is absent, empty
    or bytes that are valid UTF-8 (and, on a non-zero code, the captured
    stderr likewise and the callback, when supplied, returns normally), the
    call returns to its caller, raising nothing, and the value is the
    captured stdout decoded and stripped of leading and trailing whitespace,
    the empty text when nothing was captured. Conversely every synchronous
    call that returns is of this kind and returns that text. *)
Theorem run_sync_returns_stdout (os : OS) (cmd : list str) (log_command : bool)
    (error_callback : option (M unit)) (exit_on_error : bool)
    (kwargs : gmap string kwval) (w : World) :
  (forall proc text,
      subprocess_run os (started log_command cmd kwargs w) cmd
        (normalize_kwargs kwargs) = Ok proc ->
      stream_text (stdout proc) = Some text ->
      ((returncode proc = 0 ->
        _run os cmd false log_command error_callback exit_on_error kwargs w
        = (Ok (RText text), started log_command cmd kwargs w))
       /\ (forall records w3,
           returncode proc <> 0 -> exit_on_error = false ->
           stderr_report proc = Some records ->
           call_back error_callback
             ((started log_command cmd kwargs w
               ++ [ELog ERROR (MsgErrored cmd (returncode proc))]) ++ records)
           = (Ok tt, w3) ->
           _run os cmd false log_command error_callback exit_on_error kwargs w
           = (Ok (RText text), w3)))
      /\ (stdout proc = None \/ stdout proc = Some (SBytes [])
          \/ stdout proc = Some (SText []) -> text = [])
      /\ (forall out, stdout proc = Some (SBytes out) -> out <> [] ->
          exists decoded, utf8_decode out = Some decoded /\ text = strip decoded)
      /\ (forall c, head text = Some c -> is_space c = false)
      /\ (forall c, last text = Some c -> is_space c = false))
  /\ (forall v w',
      _run os cmd false log_command error_callback exit_on_error kwargs w
      = (Ok v, w') ->
      exists proc text,
        subprocess_run os (started log_command cmd kwargs w) cmd
          (normalize_kwargs kwargs) = Ok proc
        /\ (returncode proc = 0 \/ (returncode proc <> 0 /\ exit_on_error = false))
        /\ stream_text (stdout proc) = Some text /\ v = RText text
        /\ (returncode proc <> 0 ->
            exists records w3,
              stderr_report proc = Some records
              /\ call_back error_callback
                   ((started log_command cmd kwargs w
                     ++ [ELog ERROR (MsgErrored cmd (returncode proc))])
                    ++ records) = (Ok tt, w3)))
  /\ (forall captured,
      (exists text, stream_text captured = Some text)
      <-> (captured = None \/ captured = Some (SBytes [])
           \/ captured = Some (SText [])
           \/ exists out decoded,
                captured = Some (SBytes out) /\ utf8_decode out = Some decoded))
  /\ (forall proc,
      (exists records, stderr_report proc = Some records)
      <-> (stderr proc = None \/ stderr proc = Some (SBytes [])
           \/ stderr proc = Some (SText [])
           \/ exists err decoded,
                stderr proc = Some (SBytes err)
                /\ utf8_decode err = Some decoded)).
Proof.
  split; [|split; [|split;
                    [apply stream_text_defined|apply stderr_report_defined]]].
  - intros proc text Hrun Htext.
    destruct (stream_text_spec _ _ Htext) as (Hnil & Hdec & _ & Hhead & Hlast).
    split; [|repeat split; assumption].
    split.
    + intros Hzero. rewrite run_sync_unfold. cbv zeta. rewrite Hrun.
      rewrite on_failure_zero by exact Hzero.
      rewrite captured_stdout_eq. unfold stdout_text. rewrite Htext.
      reflexivity.
    + intros records w3 Hnz -> Herr Hcb.
      rewrite run_sync_unfold. cbv zeta. rewrite Hrun.
      rewrite on_failure_nonzero by exact Hnz. cbv zeta.
      rewrite Herr, Hcb. rewrite captured_stdout_eq. unfold stdout_text.
      rewrite Htext. reflexivity.
  - intros v w' Hret.
    destruct (run_sync_returns_only_if _ _ _ _ _ _ _ _ _ Hret)
      as (proc & Hrun & Hcase).
    exists proc. revert Hret. rewrite run_sync_unfold. cbv zeta. rewrite Hrun.
    destruct (Z.eq_dec (returncode proc) 0) as [Hz|Hnz].
    + rewrite on_failure_zero by exact Hz. rewrite captured_stdout_eq.
      unfold stdout_text.
      destruct (stream_text (stdout proc)) as [text|]; [|discriminate].
      intros [= <- <-]. exists text. repeat split; try assumption.
      intros Hnz. contradiction.
    + rewrite on_failure_nonzero by exact Hnz. cbv zeta.
      destruct (stderr_report proc) as [records|]; [|discriminate].
      destruct (call_back _ _) as [[[]|e] w3] eqn:Hcb; [|discriminate].
      destruct exit_on_error; [discriminate|].
      rewrite captured_stdout_eq. unfold stdout_text.
      destruct (stream_text (stdout proc)) as [text|]; [|discriminate].
      intros [= <- <-]. exists text. repeat split; try assumption.
      intros _. exists records, w3. split; [reflexivity|exact Hcb].
Qed.

(** A command that prints [" ok\n"] and exits [3], run with
    [capture_output=True] and [exit_on_error=False]: the caller gets ["ok"]. *)
Lemma run_sync_returns_stdout_witness :
  _run (running (python_run 3 [x20; x6f; x6b; x0a] []) (calm_os []))
    [lit "job"] false true None false {["capture_output"%string := VBool true]} []
  = (Ok (RText (lit "ok")),
     (started true [lit "job"] {["capture_output"%string := VBool true]} []
      ++ [ELog ERROR (MsgErrored [lit "job"] 3)]) ++ []).
Proof.
  refine (proj2 (proj1 (proj1 (run_sync_returns_stdout
            (running (python_run 3 [x20; x6f; x6b; x0a] []) (calm_os []))
            [lit "job"] true None false
            {["capture_output"%string := VBool true]} [])
            {| returncode := 3; stdout := Some (SBytes [x20; x6f; x6b; x0a]);
               stderr := Some (SBytes []) |} (lit "ok") _ _)) [] _ _ _ _ _).
  - vm_compute. reflexivity.
  - reflexivity.
  - simpl. lia.
  - reflexivity.
  - reflexivity.
  - reflexivity.
Defined.

(** C3 as stated fails: the subcommand exits zero but its captured stdout
    is not valid UTF-8, or is text because the caller asked for text mode,
    and [_run] raises instead of returning; the subcommand exits non-zero
    with [exit_on_error] false and the callback calls [sys.exit], and the
    process is terminated after all. *)
Lemma run_sync_returns_stdout_counterexample :
  (subprocess_run (running (python_run 0 [x6f; xff] []) (calm_os []))
     (started true [lit "job"] {["capture_output"%string := VBool true]} [])
     [lit "job"] (normalize_kwargs {["capture_output"%string := VBool true]})
   = Ok {| returncode := 0; stdout := Some (SBytes [x6f; xff]);
           stderr := Some (SBytes []) |}
   /\ fst (_run (running (python_run 0 [x6f; xff] []) (calm_os []))
             [lit "job"] false true None true
             {["capture_output"%string := VBool true]} [])
      = Raise UnicodeDecodeError)
  /\ (subprocess_run (running (python_run 0 [x6f; x6b] []) (calm_os []))
        (started true [lit "job"]
           (<["text"%string := VBool true]>
              {["capture_output"%string := VBool true]}) [])
        [lit "job"]
        (normalize_kwargs (<["text"%string := VBool true]>
                             {["capture_output"%string := VBool true]}))
      = Ok {| returncode := 0; stdout := Some (SText (lit "ok"));
              stderr := Some (SText []) |}
      /\ fst (_run (running (python_run 0 [x6f; x6b] []) (calm_os []))
                [lit "job"] false true None true
                (<["text"%string := VBool true]>
                   {["capture_output"%string := VBool true]}) [])
         = Raise AttributeError)
  /\ (subprocess_run (running (python_run 4 [] []) (calm_os []))
        (started true [lit "job"] ∅ []) [lit "job"] (normalize_kwargs ∅)
      = Ok {| returncode := 4; stdout := None; stderr := None |}
      /\ fst (_run (running (python_run 4 [] []) (calm_os []))
                [lit "job"] false true (Some (sys_exit 9)) false ∅ [])
         = Raise (SystemExit 9)).
Proof. repeat split; vm_compute; reflexivity. Qed.

(** ** The bootstrap *)

Lemma configure_cluster_gate (os : OS) (w : World) :
  configure_cluster os tt w =
  match which os w (lit "pip") with
  | Some _ => configure_cluster_body os w
  | None =>
    (Raise (SystemExit 1),
     w ++ [ELog ERROR (MsgMissingDeps "configure_cluster");
           ELog ERROR (MsgBinaries [lit "pip"]);
           ELog ERROR (MsgEnvs [])])
  end.
Proof.
  unfold configure_cluster. rewrite depend_on_unfold.
  unfold missing_binaries, missing_envs, binary_missing. simpl.
  destruct (which os w (lit "pip")); reflexivity.
Qed.

(** Lines 130-134 and what follows them. *)
Lemma configure_cluster_body_unfold (os : OS) (w : World) :
  configure_cluster_body os w =
  let w1 := (w ++ [ELog DEBUG MsgConfigStarted]) ++ [EListdir (lit "./")] in
  match listdir os w1 (lit "./") with
  | Raise e => (Raise e, w1)
  | Ok files =>
    let w2 := (w1 ++ [ELog DEBUG (MsgListing files)]) ++ [EListdir (lit "./")] in
    match listdir os w2 (lit "./") with
    | Raise e => (Raise e, w2)
    | Ok listing =>
      match select_wheel listing with
      | None => (Raise IndexError, w2)
      | Some wheel_file =>
        match install os wheel_file w2 with
        | (Ok _, w3) => refresh os (w3 ++ [ELog INFO MsgInitialized])
        | (Raise e, w3) => (Raise e, w3)
        end
      end
    end
  end.
Proof.
  unfold configure_cluster_body, os_listdir, index_last, select_wheel.
  unfold bind at 1, log at 1, emit at 1.
  unfold bind at 1, bind at 1, emit at 1, lift at 1. cbv zeta.
  destruct (listdir os _ _) as [files|e]; [|reflexivity].
  unfold bind at 1, log at 1, emit at 1.
  unfold bind at 1, bind at 1, emit at 1, lift at 1.
  destruct (listdir os _ _) as [listing|e]; [|reflexivity].
  unfold bind at 1.
  destruct (last (available_wheels listing)) as [wheel_file|]; [|reflexivity].
  unfold ret at 1. unfold bind at 1.
  destruct (install os wheel_file _) as [[[]|e] w3]; reflexivity.
Qed.

(** C9. Past the dependency gate, with a working directory in which no name
    ends in [".whl"], [configure_cluster] raises [IndexError] at
    [available_wheels[-1]]: the run has logged its start and the listing and
    listed the directory twice, and no command has been run. *)
Theorem configure_without_wheel_raises (os : OS) (w : World) (pip : str)
    (files listing : list str) :
  which os w (lit "pip") = Some pip ->
  listdir os ((w ++ [ELog DEBUG MsgConfigStarted]) ++ [EListdir (lit "./")])
    (lit "./") = Ok files ->
  listdir os
    ((((w ++ [ELog DEBUG MsgConfigStarted]) ++ [EListdir (lit "./")])
      ++ [ELog DEBUG (MsgListing files)]) ++ [EListdir (lit "./")])
    (lit "./") = Ok listing ->
  (forall file, In file listing -> endswith file (lit ".whl") = false) ->
  configure_cluster os tt w
  = (Raise IndexError,
     w ++ [ELog DEBUG MsgConfigStarted; EListdir (lit "./");
           ELog DEBUG (MsgListing files); EListdir (lit "./")]).
Proof.
  intros Hpip Hfiles Hlisting Hnone.
  rewrite configure_cluster_gate, Hpip, configure_cluster_body_unfold.
  cbv zeta. rewrite Hfiles, Hlisting.
  apply select_wheel_none in Hnone. rewrite Hnone.
  rewrite <- !app_assoc. reflexivity.
Qed.

(** A directory with a README and a tarball only. *)
Lemma configure_without_wheel_raises_witness :
  configure_cluster (calm_os [lit "README.md"; lit "pkg-1.0.tar.gz"]) tt []
  = (Raise IndexError,
     [ELog DEBUG MsgConfigStarted; EListdir (lit "./");
      ELog DEBUG (MsgListing [lit "README.md"; lit "pkg-1.0.tar.gz"]);
      EListdir (lit "./")]).
Proof.
  apply (configure_without_wheel_raises
           (calm_os [lit "README.md"; lit "pkg-1.0.tar.gz"]) []
           (lit "/usr/bin/pip")
           [lit "README.md"; lit "pkg-1.0.tar.gz"]
           [lit "README.md"; lit "pkg-1.0.tar.gz"]).
  - reflexivity.
  - reflexivity.
  - reflexivity.
  - intros file [<-|[<-|[]]]; reflexivity.
Defined.

(** The refresh of lines 143-156, step by step: an [ImportError] from the
    first import or from the first [reload(site)] sends the run to the
    [imp] fallback; nothing reaches the [except Exception] clause. *)
Lemma refresh_unfold (os : OS) (w : World) :
  refresh os w =
  let fallback w' :=
    let w1 := w' ++ [EImport "imp"] in
    match import_module os w1 "imp" with
    | Raise e => (Raise e, w1)
    | Ok _ =>
      match reload_site os (w1 ++ [EReload]) with
      | Ok _ => (Ok tt, w1 ++ [EReload])
      | Raise e => (Raise e, w1 ++ [EReload])
      end
    end in
  let w1 := w ++ [EImport "importlib"] in
  match import_module os w1 "importlib" with
  | Raise e => if is_ImportError e then fallback w1 else (Raise e, w1)
  | Ok _ =>
    match reload_site os (w1 ++ [EReload]) with
    | Ok _ => (Ok tt, w1 ++ [EReload])
    | Raise e => if is_ImportError e then fallback (w1 ++ [EReload])
                 else (Raise e, w1 ++ [EReload])
    end
  end.
Proof.
  unfold refresh, try_except, import_reload, reload, bind, emit, lift, raise.
  simpl.
  destruct (import_module os _ "importlib") as [[]|e].
  - destruct (reload_site os _) as [[]|e]; [reflexivity|].
    destruct (is_ImportError e); [|reflexivity].
    destruct (import_module os _ "imp") as [[]|e']; [|reflexivity].
    destruct (reload_site os _) as [[]|e']; reflexivity.
  - destruct (is_ImportError e); [|reflexivity].
    destruct (import_module os _ "imp") as [[]|e']; [|reflexivity].
    destruct (reload_site os _) as [[]|e']; reflexivity.
Qed.

(** An error of the refresh that is not an [ImportError] reaches the
    caller. *)
Lemma refresh_propagates_other_errors (os : OS) (w : World) (e : exn) :
  import_module os (w ++ [EImport "importlib"]) "importlib" = Ok tt ->
  reload_site os ((w ++ [EImport "importlib"]) ++ [EReload]) = Raise e ->
  is_ImportError e = false ->
  refresh os w = (Raise e, (w ++ [EImport "importlib"]) ++ [EReload]).
Proof.
  intros Himport Hreload Hclass.
  rewrite refresh_unfold. cbv zeta. rewrite Himport, Hreload, Hclass.
  reflexivity.
Qed.

(** C5 on the code. The first [reload(site)] raises [ImportError], the
    [except ImportError] clause meant for the import of line 147 absorbs it,
    the retry through [imp] succeeds, and [configure_cluster] returns
    normally: the error of the refresh step never reaches the caller and
    nothing about it is logged. *)
Theorem refresh_error_absorbed :
  configure_cluster (reloading flaky_reload (calm_os [lit "pkg-1.0.whl"])) tt []
  = (Ok tt,
     [ELog DEBUG MsgConfigStarted; EListdir (lit "./");
      ELog DEBUG (MsgListing [lit "pkg-1.0.whl"]); EListdir (lit "./");
      ELog INFO (MsgCommandLine [lit "python"; lit "-V"]);
      ERun [lit "python"; lit "-V"] ∅;
      ELog INFO (MsgCommandLine [lit "pip"; lit "-V"]);
      ERun [lit "pip"; lit "-V"] ∅;
      ELog INFO (MsgCommandLine [lit "pip"; lit "install"; lit "-r";
                                 lit "requirements/requirements.txt"]);
      ERun [lit "pip"; lit "install"; lit "-r";
            lit "requirements/requirements.txt"] ∅;
      ELog DEBUG (MsgWheel (lit "pkg-1.0.whl"));
      ELog INFO (MsgCommandLine [lit "pip"; lit "install"; lit "./pkg-1.0.whl";
                                 lit "--upgrade"]);
      ERun [lit "pip"; lit "install"; lit "./pkg-1.0.whl"; lit "--upgrade"] ∅;
      ELog INFO MsgInitialized;
      EImport "importlib"; EReload; EImport "imp"; EReload])
  /\ flaky_reload
       [ELog INFO MsgInitialized; EImport "importlib"; EReload]
     = Raise ImportError.
Proof. split; vm_compute; reflexivity. Qed.

(** C4 on the code. With every command succeeding and a refresh that fails,
    the run ends in the refresh's error, yet the success confirmation is
    already in the log, ahead of the import and of [reload(site)]: line 141
    runs before lines 143-152. *)
Theorem confirmation_logged_before_refresh :
  configure_cluster (reloading broken_reload (calm_os [lit "pkg-1.0.whl"])) tt []
  = (Raise (RuntimeError "site"),
     [ELog DEBUG MsgConfigStarted; EListdir (lit "./");
      ELog DEBUG (MsgListing [lit "pkg-1.0.whl"]); EListdir (lit "./");
      ELog INFO (MsgCommandLine [lit "python"; lit "-V"]);
      ERun [lit "python"; lit "-V"] ∅;
      ELog INFO (MsgCommandLine [lit "pip"; lit "-V"]);
      ERun [lit "pip"; lit "-V"] ∅;
      ELog INFO (MsgCommandLine [lit "pip"; lit "install"; lit "-r";
                                 lit "requirements/requirements.txt"]);
      ERun [lit "pip"; lit "install"; lit "-r";
            lit "requirements/requirements.txt"] ∅;
      ELog DEBUG (MsgWheel (lit "pkg-1.0.whl"));
      ELog INFO (MsgCommandLine [lit "pip"; lit "install"; lit "./pkg-1.0.whl";
                                 lit "--upgrade"]);
      ERun [lit "pip"; lit "install"; lit "./pkg-1.0.whl"; lit "--upgrade"] ∅;
      ELog INFO MsgInitialized;
      EImport "importlib"; EReload]).
Proof. vm_compute. reflexivity. Qed.

Lemma stderr_report_shape (proc : CompletedProcess) (records : list event) :
  stderr_report proc = Some records ->
  records = [] \/ exists text, records = [ELog ERROR (MsgText text)].
Proof.
  unfold stderr_report. destruct (stderr proc) as [err|]; [|intros [= <-]; auto].
  destruct (stream_truthy err); [|intros [= <-]; auto].
  destruct (stream_text (Some err)) as [text|]; [|discriminate].
  intros [= <-]. right. exists text. reflexivity.
Qed.

Section Order.

Variable os : OS.

Lemma first_index_quiet (p : event -> bool) (pre evs : list event) :
  forallb (fun ev => negb (p ev)) pre = true ->
  first_index p (pre ++ evs)
  = (fun i => (length pre + i)%nat) <$> first_index p evs.
Proof.
  induction pre as [|ev pre IH]; simpl; intros Hpre.
  - destruct (first_index p evs); reflexivity.
  - apply andb_true_iff in Hpre as [Hev Hpre].
    apply negb_true_iff in Hev. rewrite Hev, (IH Hpre).
    destruct (first_index p evs); reflexivity.
Qed.

Lemma first_index_none (p : event -> bool) (evs : list event) :
  forallb (fun ev => negb (p ev)) evs = true -> first_index p evs = None.
Proof.
  intros Hevs. rewrite <- (app_nil_r evs), first_index_quiet by exact Hevs.
  reflexivity.
Qed.

Lemma quiet_split (evs : list event) :
  forallb quiet evs = true ->
  forallb (fun ev => negb (is_confirmation ev)) evs = true
  /\ forallb (fun ev => negb (is_reload ev)) evs = true.
Proof.
  induction evs as [|ev evs IH]; simpl; [split; reflexivity|].
  intros H. apply andb_true_iff in H as [Hev Hevs].
  apply andb_true_iff in Hev as [-> ->].
  destruct (IH Hevs) as [-> ->]. split; reflexivity.
Qed.

Lemma run_default_trace (cmd : list str) (w : World) (r : result run_value)
    (w' : World) :
  _run_default os cmd w = (r, w') ->
  exists evs, w' = w ++ evs /\ forallb quiet evs = true.
Proof.
  unfold _run_default. rewrite run_sync_unfold. cbv zeta.
  unfold started, logged.
  destruct (subprocess_run os _ cmd _) as [proc|e].
  - destruct (Z.eq_dec (returncode proc) 0) as [Hz|Hnz].
    + rewrite on_failure_zero by exact Hz. rewrite captured_stdout_eq.
      destruct (stdout_text proc); intros [= <- <-];
        eexists; rewrite <- !app_assoc; split; reflexivity.
    + rewrite on_failure_nonzero by exact Hnz. cbv zeta.
      unfold call_back, ret.
      destruct (stderr_report proc) as [records|] eqn:Hrec.
      * destruct (stderr_report_shape _ _ Hrec) as [->|[text ->]];
          intros [= <- <-]; eexists; rewrite <- !app_assoc; split; reflexivity.
      * intros [= <- <-]. eexists. rewrite <- !app_assoc. split; reflexivity.
  - intros [= <- <-]. eexists. rewrite <- !app_assoc. split; reflexivity.
Qed.

Lemma install_trace (wheel_file : str) (w : World) (r : result unit)
    (w' : World) :
  install os wheel_file w = (r, w') ->
  exists evs, w' = w ++ evs /\ forallb quiet evs = true.
Proof.
  unfold install.
  unfold bind at 1.
  destruct (_run_default os _ w) as [r1 w1] eqn:H1.
  apply run_default_trace in H1 as (e1 & -> & Q1).
  destruct r1; [|intros [= <- <-]; eauto].
  unfold bind at 1.
  destruct (_run_default os _ (w ++ e1)) as [r2 w2] eqn:H2.
  apply run_default_trace in H2 as (e2 & -> & Q2).
  destruct r2;
    [|intros [= <- <-]; exists (e1 ++ e2);
      rewrite app_assoc, forallb_app, Q1, Q2; split; reflexivity].
  unfold bind at 1.
  destruct (_run_default os _ ((w ++ e1) ++ e2)) as [r3 w3] eqn:H3.
  apply run_default_trace in H3 as (e3 & -> & Q3).
  destruct r3;
    [|intros [= <- <-]; exists (e1 ++ e2 ++ e3);
      rewrite !app_assoc, !forallb_app, Q1, Q2, Q3; split; reflexivity].
  unfold bind at 1, log at 1, emit at 1. unfold bind at 1.
  destruct (_run_default os _ _) as [r4 w4] eqn:H4.
  apply run_default_trace in H4 as (e4 & -> & Q4).
  exists (e1 ++ e2 ++ e3 ++ [ELog DEBUG (MsgWheel wheel_file)] ++ e4).
  rewrite !forallb_app, Q1, Q2, Q3, Q4.
  destruct r4; unfold ret in H; injection H as <- <-;
    rewrite <- !app_assoc; split; reflexivity.
Qed.

Lemma refresh_trace (w : World) (r : result unit) (w' : World) :
  refresh os w = (r, w') -> exists evs, w' = w ++ evs.
Proof.
  rewrite refresh_unfold. cbv zeta.
  repeat match goal with
         | |- context [match ?x with _ => _ end] => destruct x
         end;
    intros [= <- <-]; eexists; rewrite <- ?app_assoc; reflexivity.
Qed.

(** In every run of [configure_cluster], the first [reload(site)], if there
    is one, comes after the success confirmation has been logged. *)
Lemma confirmation_precedes_refresh (w : World) (r : result unit) (w' : World) :
  configure_cluster os tt w = (r, w') ->
  exists evs,
    w' = w ++ evs
    /\ forall j, first_index is_reload evs = Some j ->
       exists i, first_index is_confirmation evs = Some i /\ (i < j)%nat.
Proof.
  rewrite configure_cluster_gate.
  destruct (which os w (lit "pip"));
    [|intros [= <- <-]; eexists; split; [reflexivity|discriminate]].
  rewrite configure_cluster_body_unfold. cbv zeta.
  destruct (listdir os _ _) as [files|e];
    [|intros [= <- <-]; eexists; rewrite <- !app_assoc;
      split; [reflexivity|discriminate]].
  destruct (listdir os _ _) as [listing|e];
    [|intros [= <- <-]; eexists; rewrite <- !app_assoc;
      split; [reflexivity|discriminate]].
  destruct (select_wheel listing) as [wheel_file|];
    [|intros [= <- <-]; eexists; rewrite <- !app_assoc;
      split; [reflexivity|discriminate]].
  destruct (install os wheel_file _) as [ri w3] eqn:Hi.
  apply install_trace in Hi as (evsI & -> & QI).
  apply quiet_split in QI as [QIc QIr].
  destruct ri as [[]|e].
  - intros Hr. apply refresh_trace in Hr as [evsR ->].
    exists ([ELog DEBUG MsgConfigStarted; EListdir (lit "./");
             ELog DEBUG (MsgListing files); EListdir (lit "./")]
            ++ evsI ++ [ELog INFO MsgInitialized] ++ evsR).
    split; [rewrite <- !app_assoc; reflexivity|].
    intros j. cbn [app first_index is_reload is_confirmation fmap option_fmap option_map].
    rewrite !first_index_quiet by assumption.
    cbn [app first_index is_reload is_confirmation fmap option_fmap option_map].
    destruct (first_index is_reload evsR) as [k|]; [|discriminate].
    cbn [fmap option_fmap option_map]. intros [= <-].
    eexists. split; [reflexivity|]. lia.
  - intros [= <- <-].
    exists ([ELog DEBUG MsgConfigStarted; EListdir (lit "./");
             ELog DEBUG (MsgListing files); EListdir (lit "./")] ++ evsI).
    split; [rewrite <- !app_assoc; reflexivity|].
    intros j. cbn [app first_index is_reload fmap option_fmap option_map].
    rewrite first_index_none by assumption. discriminate.
Qed.

End Order.

(** * Further properties of the code *)

(** ** Keyword normalisation, lines 88-90 *)

(** X1. When [capture_output] is given a true value, it is removed from the
    keywords, [stdout] and [stderr] are both [PIPE] whatever the caller had
    put there, and every other keyword reaches [subprocess.run] untouched. *)
Theorem normalize_kwargs_capture (kwargs : gmap string kwval) (v : kwval) :
  kwargs !! "capture_output"%string = Some v ->
  truthy v = true ->
  normalize_kwargs kwargs !! "capture_output"%string = None
  /\ normalize_kwargs kwargs !! "stdout"%string = Some PIPE
  /\ normalize_kwargs kwargs !! "stderr"%string = Some PIPE
  /\ forall k : string,
     k <> "capture_output"%string -> k <> "stdout"%string ->
     k <> "stderr"%string ->
     normalize_kwargs kwargs !! k = kwargs !! k.
Proof.
  intros Hget Htrue. unfold normalize_kwargs. rewrite Hget. simpl.
  rewrite Htrue. repeat split.
  - rewrite !lookup_insert_ne by discriminate. apply lookup_delete_eq.
  - rewrite lookup_insert_ne by discriminate. apply lookup_insert_eq.
  - apply lookup_insert_eq.
  - intros k Hc Ho He.
    rewrite !lookup_insert_ne by congruence.
    apply lookup_delete_ne. congruence.
Qed.

(** A caller that asks for capture and also redirects stdout to the null
    device gets pipes, and keeps its working directory. *)
Lemma normalize_kwargs_capture_witness :
  normalize_kwargs
    (<["capture_output"%string := VBool true]>
       (<["stdout"%string := DEVNULL]> {["cwd"%string := VStr (lit "/tmp")]}))
    !! "stdout"%string = Some PIPE
  /\ normalize_kwargs
       (<["capture_output"%string := VBool true]>
          (<["stdout"%string := DEVNULL]> {["cwd"%string := VStr (lit "/tmp")]}))
       !! "cwd"%string = Some (VStr (lit "/tmp")).
Proof.
  assert ((<["capture_output"%string := VBool true]>
             (<["stdout"%string := DEVNULL]>
                {["cwd"%string := VStr (lit "/tmp")]}) : gmap string kwval)
          !! "capture_output"%string = Some (VBool true)) as Hget
    by (vm_compute; reflexivity).
  destruct (normalize_kwargs_capture _ (VBool true) Hget eq_refl)
    as (_ & Hout & _ & Hrest).
  split; [exact Hout|].
  rewrite Hrest by discriminate. vm_compute. reflexivity.
Defined.

(** X2. After normalisation no true [capture_output] is left for
    [subprocess.run] to see; keywords without a true [capture_output]
    (absent, [False], [None], [0]) pass through unchanged, a false
    [capture_output] included; normalising twice is normalising once. *)
Theorem normalize_kwargs_settled (kwargs : gmap string kwval) :
  truthy (default VNone (normalize_kwargs kwargs !! "capture_output"%string))
  = false
  /\ (truthy (default VNone (kwargs !! "capture_output"%string)) = false ->
      normalize_kwargs kwargs = kwargs)
  /\ normalize_kwargs (normalize_kwargs kwargs) = normalize_kwargs kwargs.
Proof.
  assert (truthy (default VNone
                    (normalize_kwargs kwargs !! "capture_output"%string))
          = false) as Hsettled.
  { unfold normalize_kwargs.
    destruct (truthy (default VNone (kwargs !! "capture_output"%string)))
      eqn:Hc; [|exact Hc].
    rewrite !lookup_insert_ne by discriminate.
    rewrite lookup_delete_eq. reflexivity. }
  split; [exact Hsettled|]. split.
  - intros Hfalse. unfold normalize_kwargs. rewrite Hfalse. reflexivity.
  - unfold normalize_kwargs at 1. rewrite Hsettled. reflexivity.
Qed.

Lemma normalize_kwargs_settled_witness :
  normalize_kwargs {["capture_output"%string := VBool false]}
  = {["capture_output"%string := VBool false]}.
Proof.
  apply (proj1 (proj2 (normalize_kwargs_settled
                         {["capture_output"%string := VBool false]}))).
  reflexivity.
Defined.

(** ** [_run] beyond the failure contract *)

(** X3. When [subprocess.run] itself raises (the program is not found, a
    timeout expires), a synchronous [_run] passes that error on as it is:
    nothing is logged after the command line, the callback is not called and
    no [SystemExit] is substituted, whatever [exit_on_error] says. *)
Theorem run_sync_launch_error (os : OS) (cmd : list str) (log_command : bool)
    (error_callback : option (M unit)) (exit_on_error : bool)
    (kwargs : gmap string kwval) (w : World) (e : exn) :
  subprocess_run os (started log_command cmd kwargs w) cmd
    (normalize_kwargs kwargs) = Raise e ->
  _run os cmd false log_command error_callback exit_on_error kwargs w
  = (Raise e, started log_command cmd kwargs w).
Proof.
  intros Hrun. rewrite run_sync_unfold. cbv zeta. rewrite Hrun. reflexivity.
Qed.

Lemma run_sync_launch_error_witness :
  _run (unlaunchable (calm_os [])) [lit "no-such-program"] false true
    (Some (emit (EUser "alerted"))) true ∅ []
  = (Raise FileNotFoundError, started true [lit "no-such-program"] ∅ []).
Proof.
  apply (run_sync_launch_error (unlaunchable (calm_os []))
           [lit "no-such-program"] true (Some (emit (EUser "alerted"))) true
           ∅ [] FileNotFoundError).
  reflexivity.
Defined.

(** X4. On exit code zero the failure path is skipped altogether: stderr is
    neither decoded nor logged, the callback is not called, [exit_on_error]
    is not consulted, and the world is left as it was right after the
    subcommand. What the call does depends on the captured stdout alone: it
    returns the empty text when stdout is absent or empty, returns the
    stripped decoding of non-empty bytes that are valid UTF-8, raises
    [UnicodeDecodeError] for bytes that are not, and raises [AttributeError]
    for a non-empty text-mode stdout. *)
Theorem run_sync_success (os : OS) (cmd : list str) (log_command : bool)
    (error_callback : option (M unit)) (exit_on_error : bool)
    (kwargs : gmap string kwval) (w : World) (proc : CompletedProcess) :
  subprocess_run os (started log_command cmd kwargs w) cmd
    (normalize_kwargs kwargs) = Ok proc ->
  returncode proc = 0 ->
  (stdout proc = None \/ stdout proc = Some (SBytes [])
   \/ stdout proc = Some (SText []) ->
   _run os cmd false log_command error_callback exit_on_error kwargs w
   = (Ok (RText []), started log_command cmd kwargs w))
  /\ (forall out decoded,
      stdout proc = Some (SBytes out) -> out <> [] ->
      utf8_decode out = Some decoded ->
      _run os cmd false log_command error_callback exit_on_error kwargs w
      = (Ok (RText (strip decoded)), started log_command cmd kwargs w))
  /\ (forall out,
      stdout proc = Some (SBytes out) -> utf8_decode out = None ->
      _run os cmd false log_command error_callback exit_on_error kwargs w
      = (Raise UnicodeDecodeError, started log_command cmd kwargs w))
  /\ (forall text,
      stdout proc = Some (SText text) -> text <> [] ->
      _run os cmd false log_command error_callback exit_on_error kwargs w
      = (Raise AttributeError, started log_command cmd kwargs w)).
Proof.
  intros Hrun Hzero.
  assert (_run os cmd false log_command error_callback exit_on_error kwargs w
          = captured_stdout proc (started log_command cmd kwargs w)) as ->.
  { rewrite run_sync_unfold. cbv zeta. rewrite Hrun.
    rewrite on_failure_zero by exact Hzero. reflexivity. }
  unfold captured_stdout, bind, decode, ret, raise.
  repeat split.
  - intros [->|[->| ->]]; reflexivity.
  - intros out decoded -> Hne Hdec.
    destruct out as [|b out]; [congruence|]. cbn [stream_truthy].
    rewrite Hdec. reflexivity.
  - intros out -> Hdec.
    destruct out as [|b out]; [discriminate Hdec|]. cbn [stream_truthy].
    rewrite Hdec. reflexivity.
  - intros text -> Hne.
    destruct text as [|c text]; [congruence|]. reflexivity.
Qed.

(** Exit code zero with garbage on a captured stderr and a callback that
    would raise: the caller just gets ["ok"]. The same command in text mode:
    [AttributeError]. *)
Lemma run_sync_success_witness :
  _run (running (python_run 0 [x6f; x6b; x0a] [xff]) (calm_os []))
    [lit "job"] false false (Some (raise (RuntimeError "cleanup failed"))) true
    {["capture_output"%string := VBool true]} []
  = (Ok (RText (strip (lit "ok" ++ [10%N]))),
     started false [lit "job"] {["capture_output"%string := VBool true]} [])
  /\ _run (running (python_run 0 [x6f; x6b] []) (calm_os []))
       [lit "job"] false false None true
       (<["text"%string := VBool true]>
          {["capture_output"%string := VBool true]}) []
     = (Raise AttributeError,
        started false [lit "job"]
          (<["text"%string := VBool true]>
             {["capture_output"%string := VBool true]}) []).
Proof.
  split.
  - refine (proj1 (proj2 (run_sync_success
              (running (python_run 0 [x6f; x6b; x0a] [xff]) (calm_os []))
              [lit "job"] false (Some (raise (RuntimeError "cleanup failed")))
              true {["capture_output"%string := VBool true]} []
              {| returncode := 0; stdout := Some (SBytes [x6f; x6b; x0a]);
                 stderr := Some (SBytes [xff]) |}
              _ _)) [x6f; x6b; x0a] (lit "ok" ++ [10%N]) _ _ _).
    + vm_compute. reflexivity.
    + reflexivity.
    + reflexivity.
    + discriminate.
    + reflexivity.
  - refine (proj2 (proj2 (proj2 (run_sync_success
              (running (python_run 0 [x6f; x6b] []) (calm_os []))
              [lit "job"] false None true
              (<["text"%string := VBool true]>
                 {["capture_output"%string := VBool true]}) []
              {| returncode := 0; stdout := Some (SText (lit "ok"));
                 stderr := Some (SText []) |} _ _))) (lit "ok") _ _).
    + vm_compute. reflexivity.
    + reflexivity.
    + reflexivity.
    + discriminate.
Defined.

(** X5. On a non-zero exit code with captured stderr that is not valid
    UTF-8, [_run] raises [UnicodeDecodeError] right after logging the command
    and its exit code: the callback is never called and the process is not
    exited with the subcommand's code, whatever the callback and
    [exit_on_error] are. *)
Theorem run_sync_undecodable_stderr (os : OS) (cmd : list str)
    (log_command : bool) (error_callback : option (M unit))
    (exit_on_error : bool) (kwargs : gmap string kwval) (w : World)
    (proc : CompletedProcess) (b : byte) (err : bytes) :
  subprocess_run os (started log_command cmd kwargs w) cmd
    (normalize_kwargs kwargs) = Ok proc ->
  returncode proc <> 0 ->
  stderr proc = Some (SBytes (b :: err)) ->
  utf8_decode (b :: err) = None ->
  _run os cmd false log_command error_callback exit_on_error kwargs w
  = (Raise UnicodeDecodeError,
     started log_command cmd kwargs w
     ++ [ELog ERROR (MsgErrored cmd (returncode proc))]).
Proof.
  intros Hrun Hrc Herr Hdec. rewrite run_sync_unfold. cbv zeta. rewrite Hrun.
  rewrite on_failure_nonzero by exact Hrc. cbv zeta.
  unfold stderr_report, stream_text. rewrite Herr. cbn [stream_truthy].
  rewrite Hdec. reflexivity.
Qed.

Lemma run_sync_undecodable_stderr_witness :
  _run (running (python_run 2 [] [x6f; xff]) (calm_os []))
    [lit "job"] false true (Some (emit (EUser "alerted"))) true
    {["capture_output"%string := VBool true]} []
  = (Raise UnicodeDecodeError,
     started true [lit "job"] {["capture_output"%string := VBool true]} []
     ++ [ELog ERROR (MsgErrored [lit "job"] 2)]).
Proof.
  apply (run_sync_undecodable_stderr
           (running (python_run 2 [] [x6f; xff]) (calm_os []))
           [lit "job"] true (Some (emit (EUser "alerted"))) true
           {["capture_output"%string := VBool true]} []
           {| returncode := 2; stdout := Some (SBytes []);
              stderr := Some (SBytes [x6f; xff]) |} x6f [xff]).
  - vm_compute. reflexivity.
  - simpl. lia.
  - reflexivity.
  - reflexivity.
Defined.

(** X6. On a non-zero exit code the callback runs after the error records
    and before the exit decision, and what it raises is what [_run] raises:
    a callback that raises, or that itself calls [sys.exit], replaces the
    subcommand's exit code, with [exit_on_error] true or false. *)
Theorem run_sync_callback_raises (os : OS) (cmd : list str) (log_command : bool)
    (callback : M unit) (exit_on_error : bool) (kwargs : gmap string kwval)
    (w : World) (proc : CompletedProcess) (records : list event) (e : exn)
    (w3 : World) :
  subprocess_run os (started log_command cmd kwargs w) cmd
    (normalize_kwargs kwargs) = Ok proc ->
  returncode proc <> 0 ->
  stderr_report proc = Some records ->
  callback ((started log_command cmd kwargs w
             ++ [ELog ERROR (MsgErrored cmd (returncode proc))]) ++ records)
  = (Raise e, w3) ->
  _run os cmd false log_command (Some callback) exit_on_error kwargs w
  = (Raise e, w3).
Proof.
  intros Hrun Hrc Herr Hcb. rewrite run_sync_unfold. cbv zeta. rewrite Hrun.
  rewrite on_failure_nonzero by exact Hrc. cbv zeta.
  rewrite Herr. unfold call_back. rewrite Hcb. reflexivity.
Qed.

(** A callback that exits [0] hides a subcommand that exited [7]. *)
Lemma run_sync_callback_raises_witness :
  _run (finishing (finished 7 None None) (calm_os [])) [lit "job"] false true
    (Some (sys_exit 0)) true ∅ []
  = (Raise (SystemExit 0),
     (started true [lit "job"] ∅ [] ++ [ELog ERROR (MsgErrored [lit "job"] 7)])
     ++ []).
Proof.
  apply (run_sync_callback_raises
           (finishing (finished 7 None None) (calm_os [])) [lit "job"] true
           (sys_exit 0) true ∅ [] (finished 7 None None) [] (SystemExit 0)).
  - reflexivity.
  - simpl. lia.
  - reflexivity.
  - reflexivity.
Defined.

(** X7. A detached call does not look at [error_callback], [exit_on_error]
    or the keywords: [capture_output] and every other keyword are dropped
    without notice, and two detached calls that differ only there behave
    alike. *)
Theorem run_detached_ignores_options (os : OS) (cmd : list str)
    (log_command : bool) (callback callback' : option (M unit))
    (exit_on_error exit_on_error' : bool) (kwargs kwargs' : gmap string kwval)
    (w : World) :
  _run os cmd true log_command callback exit_on_error kwargs w
  = _run os cmd true log_command callback' exit_on_error' kwargs' w.
Proof. rewrite !run_detached_unfold. reflexivity. Qed.

(** X8. When the launch of a detached process fails, the error [Popen]
    raised is passed on and the null device opened for the launch has been
    closed again. *)
Theorem run_detached_launch_error (os : OS) (cmd : list str)
    (log_command : bool) (error_callback : option (M unit))
    (exit_on_error : bool) (kwargs : gmap string kwval) (w : World) (e : exn) :
  open_devnull os (logged log_command cmd w ++ [EOpenDevnull]) = Ok tt ->
  Popen os ((logged log_command cmd w ++ [EOpenDevnull])
            ++ [EPopen cmd DEVNULL DEVNULL DEVNULL true]) cmd = Raise e ->
  _run os cmd true log_command error_callback exit_on_error kwargs w
  = (Raise e,
     logged log_command cmd w
     ++ [EOpenDevnull; EPopen cmd DEVNULL DEVNULL DEVNULL true; ECloseDevnull]).
Proof.
  intros Hopen Hspawn. rewrite run_detached_unfold. cbv zeta.
  rewrite Hopen, Hspawn. rewrite <- !app_assoc. reflexivity.
Qed.

Lemma run_detached_launch_error_witness :
  _run (unlaunchable (calm_os [])) [lit "daemon"] true false None false ∅ []
  = (Raise FileNotFoundError,
     [EOpenDevnull; EPopen [lit "daemon"] DEVNULL DEVNULL DEVNULL true;
      ECloseDevnull]).
Proof.
  apply (run_detached_launch_error (unlaunchable (calm_os [])) [lit "daemon"]
           false None false ∅ [] FileNotFoundError eq_refl eq_refl).
Defined.

Lemma commands_run_app (evs evs' : list event) :
  commands_run (evs ++ evs') = commands_run evs ++ commands_run evs'.
Proof.
  induction evs as [|ev evs IH]; [reflexivity|].
  destruct ev; simpl; rewrite IH; reflexivity.
Qed.

Lemma stderr_report_commands (proc : CompletedProcess) (records : list event) :
  stderr_report proc = Some records ->
  commands_run records = [] /\ commands_spawned records = []
  /\ forallb quiet records = true.
Proof.
  intros Hrec.
  destruct (stderr_report_shape _ _ Hrec) as [->|[text ->]];
    repeat split; reflexivity.
Qed.

(** What a synchronous call without callback adds to the trace. *)
Lemma run_sync_trace (os : OS) (cmd : list str) (log_command exit_on_error : bool)
    (kwargs : gmap string kwval) (w : World) (r : result run_value) (w' : World) :
  _run os cmd false log_command None exit_on_error kwargs w = (r, w') ->
  exists evs,
    w' = w ++ evs /\ commands_run evs = [cmd] /\ commands_spawned evs = []
    /\ forallb quiet evs = true.
Proof.
  rewrite run_sync_unfold. cbv zeta. unfold started, logged.
  destruct (subprocess_run os _ cmd _) as [proc|e].
  - destruct (Z.eq_dec (returncode proc) 0) as [Hz|Hnz].
    + rewrite on_failure_zero by exact Hz. rewrite captured_stdout_eq.
      destruct (stdout_text proc), log_command; intros [= <- <-];
        eexists; rewrite <- ?app_assoc; repeat split; reflexivity.
    + rewrite on_failure_nonzero by exact Hnz. cbv zeta.
      destruct (stderr_report proc) as [records|] eqn:Hrec.
      * apply stderr_report_commands in Hrec as (Hrun & Hspawn & Hquiet).
        unfold call_back, ret.
        destruct exit_on_error; rewrite ?captured_stdout_eq;
          destruct (stdout_text proc), log_command;
          intros [= <- <-]; eexists; rewrite <- ?app_assoc;
          (split; [reflexivity|]); simpl; rewrite ?Hrun, ?Hspawn, ?Hquiet;
          repeat split; reflexivity.
      * destruct log_command; intros [= <- <-];
          eexists; rewrite <- ?app_assoc; repeat split; reflexivity.
  - destruct log_command; intros [= <- <-];
      eexists; rewrite <- ?app_assoc; repeat split; reflexivity.
Qed.

(** X9. One call of [_run] executes its command at most once. A synchronous
    call (without callback) hands exactly its own command to [subprocess.run],
    once, and launches nothing with [Popen], whether the command succeeds,
    fails or cannot be started: there is no retry. A detached call never
    calls [subprocess.run] and launches its command at most once. *)
Theorem run_executes_once (os : OS) (cmd : list str)
    (log_command exit_on_error : bool) (kwargs : gmap string kwval) (w : World) :
  (forall r w',
      _run os cmd false log_command None exit_on_error kwargs w = (r, w') ->
      exists evs,
        w' = w ++ evs /\ commands_run evs = [cmd] /\ commands_spawned evs = [])
  /\ (forall error_callback r w',
      _run os cmd true log_command error_callback exit_on_error kwargs w
      = (r, w') ->
      exists evs,
        w' = w ++ evs /\ commands_run evs = []
        /\ (commands_spawned evs = [cmd]
            \/ (commands_spawned evs = [] /\ exists e, r = Raise e))).
Proof.
  split.
  - intros r w' Hrun.
    destruct (run_sync_trace _ _ _ _ _ _ _ _ Hrun) as (evs & Hw & Hr & Hs & _).
    exists evs. repeat split; assumption.
  - intros error_callback r w'. rewrite run_detached_unfold. cbv zeta.
    unfold logged.
    destruct (open_devnull os _) as [[]|e].
    + destruct (Popen os _ cmd) as [proc|e], log_command; intros [= <- <-];
        eexists; rewrite <- ?app_assoc; (split; [reflexivity|]);
        (split; [reflexivity|]); left; reflexivity.
    + destruct log_command; intros [= <- <-];
        eexists; rewrite <- ?app_assoc; (split; [reflexivity|]);
        (split; [reflexivity|]); right; split; eauto.
Qed.

Lemma run_executes_once_witness :
  exists evs,
    snd (_run (finishing (finished 5 None None) (calm_os [])) [lit "job"]
           false true None false ∅ []) = [] ++ evs
    /\ commands_run evs = [[lit "job"]] /\ commands_spawned evs = [].
Proof.
  destruct (_run (finishing (finished 5 None None) (calm_os [])) [lit "job"]
              false true None false ∅ []) as [r w'] eqn:Hrun.
  exact (proj1 (run_executes_once _ _ _ _ _ _) r w' Hrun).
Defined.

(** ** Gates on gates *)

Lemma missing_binaries_app (os : OS) (w : World) (b1 b2 : list str) :
  missing_binaries os w (b1 ++ b2)
  = missing_binaries os w b1 ++ missing_binaries os w b2.
Proof. unfold missing_binaries. apply List.filter_app. Qed.

Lemma missing_envs_app (os : OS) (w : World) (e1 e2 : list str) :
  missing_envs os w (e1 ++ e2) = missing_envs os w e1 ++ missing_envs os w e2.
Proof. unfold missing_envs. apply List.filter_app. Qed.

Lemma nonempty_app {A} (l l' : list A) :
  nonempty (l ++ l') = nonempty l || nonempty l'.
Proof. destruct l; reflexivity. Qed.

(** X10. Two stacked [depend_on] decorators let the function run exactly
    when one gate holding both requirement lists would, and exit with
    status [1] otherwise; but the stack reports less: when the outer gate
    fails, only the outer gate's missing items are logged, under the name of
    the innermost function, and the inner requirements are not examined. *)
Theorem depend_on_stacked {A R} (os : OS) (b1 e1 b2 e2 : list str)
    (func : pyfunc A R) (args : A) (w : World) :
  fst (func_body (decorator_depend_on os b1 e1
                    (decorator_depend_on os b2 e2 func)) args w)
  = fst (depend_on os (b1 ++ b2) (e1 ++ e2) func args w)
  /\ (missing_binaries os w b1 <> [] \/ missing_envs os w e1 <> [] ->
      func_body (decorator_depend_on os b1 e1
                   (decorator_depend_on os b2 e2 func)) args w
      = (Raise (SystemExit 1),
         w ++ [ELog ERROR (MsgMissingDeps (func_name func));
               ELog ERROR (MsgBinaries (missing_binaries os w b1));
               ELog ERROR (MsgEnvs (missing_envs os w e1))])).
Proof.
  unfold decorator_depend_on. cbn [func_body func_name].
  rewrite !depend_on_unfold. cbn [func_body func_name].
  rewrite missing_binaries_app, missing_envs_app, !nonempty_app.
  split.
  - destruct (nonempty (missing_binaries os w b1)),
             (nonempty (missing_envs os w e1)); cbn [orb]; try reflexivity;
      rewrite ?depend_on_unfold;
    destruct (nonempty (missing_binaries os w b2)),
             (nonempty (missing_envs os w e2)); reflexivity.
  - intros [Hb|He].
    + destruct (missing_binaries os w b1); [congruence|reflexivity].
    + destruct (missing_envs os w e1); [congruence|].
      cbn [nonempty]. rewrite orb_true_r. reflexivity.
Qed.

(** An outer gate on a missing variable in front of an inner gate on a
    missing binary: only the variable is reported. *)
Lemma depend_on_stacked_witness :
  func_body
    (decorator_depend_on (bare_path (calm_os [])) [] [lit "GCP_PROJECT"]
       (decorator_depend_on (bare_path (calm_os [])) [lit "gsutil"] []
          {| func_name := "upload";
             func_body := fun _ : unit => emit (EUser "uploaded") |})) tt []
  = (Raise (SystemExit 1),
     [] ++ [ELog ERROR (MsgMissingDeps "upload");
            ELog ERROR (MsgBinaries
                          (missing_binaries (bare_path (calm_os [])) [] []));
            ELog ERROR (MsgEnvs
                          (missing_envs (bare_path (calm_os [])) []
                             [lit "GCP_PROJECT"]))]).
Proof.
  apply (proj2 (depend_on_stacked (bare_path (calm_os [])) [] [lit "GCP_PROJECT"]
                  [lit "gsutil"] []
                  {| func_name := "upload";
                     func_body := fun _ : unit => emit (EUser "uploaded") |}
                  tt [])).
  right. discriminate.
Defined.

(** ** The bootstrap, step by step *)

(** X11. Without [pip] on the search path [configure_cluster] stops at its
    gate: it logs the three error records and raises [SystemExit(1)]
    without listing the directory, running a command or touching the
    module state. *)
Theorem configure_cluster_without_pip (os : OS) (w : World) :
  which os w (lit "pip") = None ->
  configure_cluster os tt w
  = (Raise (SystemExit 1),
     w ++ [ELog ERROR (MsgMissingDeps "configure_cluster");
           ELog ERROR (MsgBinaries [lit "pip"]);
           ELog ERROR (MsgEnvs [])]).
Proof. intros Hpip. rewrite configure_cluster_gate, Hpip. reflexivity. Qed.

Lemma configure_cluster_without_pip_witness :
  configure_cluster (bare_path (calm_os [lit "pkg-1.0.whl"])) tt []
  = (Raise (SystemExit 1),
     [] ++ [ELog ERROR (MsgMissingDeps "configure_cluster");
            ELog ERROR (MsgBinaries [lit "pip"]);
            ELog ERROR (MsgEnvs [])]).
Proof.
  apply (configure_cluster_without_pip
           (bare_path (calm_os [lit "pkg-1.0.whl"])) [] eq_refl).
Defined.

(** X12. However the refresh of lines 143-156 ends, it starts with the
    import from [importlib], calls no logger method (the error record of
    line 155 is never written), and calls [reload(site)] at most twice; when
    it returns normally, the last thing it did was a [reload(site)] that
    succeeded. *)
Theorem refresh_attempts (os : OS) (w : World) (r : result unit) (w' : World) :
  refresh os w = (r, w') ->
  exists evs,
    w' = w ++ evs
    /\ head evs = Some (EImport "importlib")
    /\ forallb (fun ev => negb (is_log ev)) evs = true
    /\ commands_run evs = []
    /\ (reloads evs <= 2)%nat
    /\ (r = Ok tt -> last evs = Some EReload /\ reload_site os w' = Ok tt).
Proof.
  rewrite refresh_unfold. cbv zeta.
  destruct (import_module os _ "importlib") as [[]|e1].
  - destruct (reload_site os _) as [[]|e2] eqn:Hr1.
    + intros [= <- <-]. eexists. rewrite <- !app_assoc.
      split; [reflexivity|]. repeat split; try reflexivity.
      * unfold reloads. simpl. lia.
      * rewrite <- Hr1. rewrite <- !app_assoc. reflexivity.
    + destruct (is_ImportError e2).
      * destruct (import_module os _ "imp") as [[]|e3].
        -- match goal with
           | |- context [reload_site os ?x] =>
             destruct (reload_site os x) as [[]|e4] eqn:Hr2
           end;
             intros [= <- <-]; eexists; rewrite <- !app_assoc;
             (split; [reflexivity|]); repeat split; try reflexivity;
             try (unfold reloads; simpl; lia); try discriminate.
           rewrite <- Hr2. rewrite <- !app_assoc. reflexivity.
        -- intros [= <- <-]. eexists. rewrite <- !app_assoc.
           split; [reflexivity|]. repeat split; try reflexivity;
             try (unfold reloads; simpl; lia); discriminate.
      * intros [= <- <-]. eexists. rewrite <- !app_assoc.
        split; [reflexivity|]. repeat split; try reflexivity;
          try (unfold reloads; simpl; lia); discriminate.
  - destruct (is_ImportError e1).
    + destruct (import_module os _ "imp") as [[]|e3].
      * match goal with
           | |- context [reload_site os ?x] =>
             destruct (reload_site os x) as [[]|e4] eqn:Hr2
           end;
          intros [= <- <-]; eexists; rewrite <- !app_assoc;
          (split; [reflexivity|]); repeat split; try reflexivity;
          try (unfold reloads; simpl; lia); try discriminate.
        rewrite <- Hr2. rewrite <- !app_assoc. reflexivity.
      * intros [= <- <-]. eexists. rewrite <- !app_assoc.
        split; [reflexivity|]. repeat split; try reflexivity;
          try (unfold reloads; simpl; lia); discriminate.
    + intros [= <- <-]. eexists.
      split; [reflexivity|]. repeat split; try reflexivity;
        try (unfold reloads; simpl; lia); discriminate.
Qed.

Lemma refresh_attempts_witness :
  exists evs,
    snd (refresh (reloading flaky_reload (calm_os [])) []) = [] ++ evs
    /\ head evs = Some (EImport "importlib")
    /\ (reloads evs <= 2)%nat
    /\ last evs = Some EReload.
Proof.
  destruct (refresh (reloading flaky_reload (calm_os [])) []) as [r w']
    eqn:Hrun.
  assert (r = Ok tt) as Hok
    by (apply (f_equal fst) in Hrun; vm_compute in Hrun; congruence).
  destruct (refresh_attempts _ _ _ _ Hrun)
    as (evs & Hw & Hhead & _ & _ & Hcount & Hlast).
  exists evs. destruct (Hlast Hok) as [Hl _].
  repeat split; assumption.
Defined.

(** X13. An error of the refresh that is not an [ImportError], raised by
    the import from [importlib] or by the first [reload(site)], reaches the
    caller as it is, [SystemExit] and [KeyboardInterrupt] included: no
    fallback is tried and nothing is logged on the way. *)
Theorem refresh_error_reaches_caller (os : OS) (w : World) (e : exn) :
  is_ImportError e = false ->
  (import_module os (w ++ [EImport "importlib"]) "importlib" = Raise e ->
   refresh os w = (Raise e, w ++ [EImport "importlib"]))
  /\ (import_module os (w ++ [EImport "importlib"]) "importlib" = Ok tt ->
      reload_site os ((w ++ [EImport "importlib"]) ++ [EReload]) = Raise e ->
      refresh os w = (Raise e, (w ++ [EImport "importlib"]) ++ [EReload])).
Proof.
  intros Hclass. split; [intros Himport|intros Himport Hreload];
    rewrite refresh_unfold; cbv zeta; rewrite Himport.
  - rewrite Hclass. reflexivity.
  - rewrite Hreload, Hclass. reflexivity.
Qed.

(** A refresh that fails with a [RuntimeError]. *)
Lemma refresh_error_reaches_caller_witness :
  refresh (reloading broken_reload (calm_os [])) []
  = (Raise (RuntimeError "site"), ([] ++ [EImport "importlib"]) ++ [EReload]).
Proof.
  refine (proj2 (refresh_error_reaches_caller
                   (reloading broken_reload (calm_os [])) []
                   (RuntimeError "site") _) _ _); reflexivity.
Defined.

(** X14. Once the first [reload(site)] has raised an [ImportError], the
    caller only ever sees what the [imp] fallback does: if the import from
    [imp] fails (the module is gone from Python 3.12 on) the caller gets
    that import's error, and if the second [reload(site)] fails the caller
    gets the second error; the first error is not raised again. *)
Theorem refresh_fallback_error (os : OS) (w : World) (e1 e : exn) :
  import_module os (w ++ [EImport "importlib"]) "importlib" = Ok tt ->
  reload_site os ((w ++ [EImport "importlib"]) ++ [EReload]) = Raise e1 ->
  is_ImportError e1 = true ->
  (import_module os
     (((w ++ [EImport "importlib"]) ++ [EReload]) ++ [EImport "imp"]) "imp"
   = Raise e ->
   refresh os w
   = (Raise e, ((w ++ [EImport "importlib"]) ++ [EReload]) ++ [EImport "imp"]))
  /\ (import_module os
        (((w ++ [EImport "importlib"]) ++ [EReload]) ++ [EImport "imp"]) "imp"
      = Ok tt ->
      reload_site os
        ((((w ++ [EImport "importlib"]) ++ [EReload]) ++ [EImport "imp"])
         ++ [EReload]) = Raise e ->
      refresh os w
      = (Raise e,
         (((w ++ [EImport "importlib"]) ++ [EReload]) ++ [EImport "imp"])
         ++ [EReload])).
Proof.
  intros Himport Hreload Hclass.
  split; [intros Himp|intros Himp Hretry];
    rewrite refresh_unfold; cbv zeta;
    rewrite Himport, Hreload, Hclass, Himp; [reflexivity|].
  rewrite Hretry. reflexivity.
Qed.

(** [reload(site)] raises [ImportError], and [imp] cannot be imported. *)
Lemma refresh_fallback_error_witness :
  refresh
    {| which := fun _ _ => None;
       environ_get := fun _ _ => None;
       listdir := fun _ _ => Ok [];
       subprocess_run := fun _ _ _ => Ok (finished 0 None None);
       open_devnull := fun _ => Ok tt;
       Popen := fun _ _ => Ok 1%N;
       import_module := fun _ module =>
         if String.eqb module "imp" then Raise ModuleNotFoundError else Ok tt;
       reload_site := fun _ => Raise ImportError |} []
  = (Raise ModuleNotFoundError,
     (([] ++ [EImport "importlib"]) ++ [EReload]) ++ [EImport "imp"]).
Proof.
  refine (proj1 (refresh_fallback_error _ [] ImportError ModuleNotFoundError
                   _ _ _) _); reflexivity.
Defined.

Lemma run_default_commands (os : OS) (cmd : list str) (w : World)
    (r : result run_value) (w' : World) :
  _run_default os cmd w = (r, w') ->
  exists evs,
    w' = w ++ evs /\ commands_run evs = [cmd] /\ forallb quiet evs = true.
Proof.
  intros Hrun. unfold _run_default in Hrun.
  destruct (run_sync_trace _ _ _ _ _ _ _ _ Hrun) as (evs & Hw & Hc & _ & Hq).
  exists evs. repeat split; assumption.
Qed.



Section FailFast.

Variable os : OS.

Lemma commands_run_nil_app (evs evs' : list event) :
  commands_run (evs ++ evs') = [] ->
  commands_run evs = [] /\ commands_run evs' = [].
Proof. rewrite commands_run_app. apply app_eq_nil. Qed.









End FailFast.



(** ** The dispatcher, continued *)

(** X16. On the task ["configure"] whatever follows on the command line is
    ignored: it is neither checked nor passed on. *)
Theorem main_configure_ignores_rest (os : OS) (prog : str) (rest : list str)
    (w : World) :
  main os (prog :: lit "configure" :: rest) w
  = main os [prog; lit "configure"] w.
Proof.
  unfold main. cbn [lookup list_lookup].
  assert (str_eqb (lit "configure") (lit "configure") = true) as ->
    by (apply str_eqb_eq; reflexivity).
  reflexivity.
Qed.

(** X17. For any task other than ["configure"] the dispatcher ends the way
    the ingestor does: if the ingestor exits with a non-zero code (and what
    it wrote to a captured stderr, if any, is valid UTF-8) the dispatcher
    raises [SystemExit] with that code after the error records; if it exits
    zero the dispatcher returns normally and whatever the ingestor printed
    is discarded. *)
Theorem main_forwards_exit_code (os : OS) (prog task : str) (rest : list str)
    (w : World) (proc : CompletedProcess) :
  task <> lit "configure" ->
  subprocess_run os
    (started true (lit "ingestor" :: task :: rest) ∅
       (w ++ [ELog DEBUG (MsgTask task)]))
    (lit "ingestor" :: task :: rest) (normalize_kwargs ∅) = Ok proc ->
  (forall records,
      returncode proc <> 0 -> stderr_report proc = Some records ->
      main os (prog :: task :: rest) w
      = (Raise (SystemExit (returncode proc)),
         (started true (lit "ingestor" :: task :: rest) ∅
            (w ++ [ELog DEBUG (MsgTask task)])
          ++ [ELog ERROR (MsgErrored (lit "ingestor" :: task :: rest)
                            (returncode proc))]) ++ records))
  /\ (forall text,
      returncode proc = 0 -> stdout_text proc = Some text ->
      main os (prog :: task :: rest) w
      = (Ok tt,
         started true (lit "ingestor" :: task :: rest) ∅
           (w ++ [ELog DEBUG (MsgTask task)]))).
Proof.
  intros Htask Hrun. apply str_eqb_neq in Htask.
  assert (main os (prog :: task :: rest) w
          = let (r, w') := _run os (lit "ingestor" :: task :: rest) false true
                             None true ∅ (w ++ [ELog DEBUG (MsgTask task)]) in
            (match r with Ok _ => Ok tt | Raise e => Raise e end, w')) as ->.
  { unfold main. cbn [lookup list_lookup]. simpl drop.
    unfold bind at 1, log at 1, emit at 1. rewrite Htask.
    unfold _run_default, bind at 1.
    destruct (_run _ _ _ _ _ _ _ _) as [[v|e] w']; reflexivity. }
  rewrite run_sync_unfold. cbv zeta. rewrite Hrun. split.
  - intros records Hrc Herr.
    rewrite on_failure_nonzero by exact Hrc. cbv zeta. rewrite Herr.
    reflexivity.
  - intros text Hzero Htext.
    rewrite on_failure_zero by exact Hzero.
    rewrite captured_stdout_eq, Htext. reflexivity.
Qed.

(** The ingestor exits [3]. *)
Lemma main_forwards_exit_code_witness :
  main (finishing (finished 3 None None) (calm_os []))
    [lit "prog"; lit "load"; lit "--table"; lit "t"] []
  = (Raise (SystemExit 3),
     (started true [lit "ingestor"; lit "load"; lit "--table"; lit "t"] ∅
        ([] ++ [ELog DEBUG (MsgTask (lit "load"))])
      ++ [ELog ERROR
            (MsgErrored [lit "ingestor"; lit "load"; lit "--table"; lit "t"] 3)])
     ++ []).
Proof.
  refine (proj1 (main_forwards_exit_code
                   (finishing (finished 3 None None) (calm_os []))
                   (lit "prog") (lit "load") [lit "--table"; lit "t"] []
                   (finished 3 None None) _ _) [] _ _).
  - vm_compute. discriminate.
  - reflexivity.
  - simpl. lia.
  - reflexivity.
Defined.

(** ** Artifact selection, continued *)

Lemma select_wheel_unique (listing : list str) (m : str) :
  In m listing -> is_wheel m = true ->
  (forall f, In f listing -> is_wheel f = true -> str_leb f m = true) ->
  select_wheel listing = Some m.
Proof.
  intros Hin Hw Hmax.
  destruct (select_wheel listing) as [m'|] eqn:Hsel.
  - apply select_wheel_greatest in Hsel as (Hin' & Hw' & Hmax').
    f_equal. apply str_leb_antisym; auto.
  - rewrite select_wheel_none in Hsel. rewrite (Hsel m Hin) in Hw.
    discriminate.
Qed.

(** X18. Selecting from two listings put together gives the lexically
    greater of the two separate selections, and the selection of the one
    when the other holds no wheel: files that are not wheels never change
    the choice, and more wheels can only move it upwards in lexical
    order. *)
Theorem select_wheel_app (l1 l2 : list str) :
  select_wheel (l1 ++ l2) = str_max (select_wheel l1) (select_wheel l2).
Proof.
  destruct (select_wheel l1) as [x|] eqn:H1,
           (select_wheel l2) as [y|] eqn:H2; simpl.
  - apply select_wheel_greatest in H1 as (Hin1 & Hw1 & Hmax1).
    apply select_wheel_greatest in H2 as (Hin2 & Hw2 & Hmax2).
    destruct (str_ltb x y) eqn:Hxy; apply select_wheel_unique;
      try assumption; try (apply in_or_app; auto);
      intros f Hf Hfw; apply in_app_or in Hf as [Hf|Hf]; auto.
    + eapply str_leb_trans; [apply Hmax1; assumption|].
      apply str_ltb_leb. exact Hxy.
    + eapply str_leb_trans; [apply Hmax2; assumption|].
      unfold str_leb. rewrite Hxy. reflexivity.
  - apply select_wheel_greatest in H1 as (Hin1 & Hw1 & Hmax1).
    rewrite select_wheel_none in H2.
    apply select_wheel_unique; try assumption; [apply in_or_app; auto|].
    intros f Hf Hfw. apply in_app_or in Hf as [Hf|Hf]; auto.
    rewrite (H2 f Hf) in Hfw. discriminate.
  - apply select_wheel_greatest in H2 as (Hin2 & Hw2 & Hmax2).
    rewrite select_wheel_none in H1.
    apply select_wheel_unique; try assumption; [apply in_or_app; auto|].
    intros f Hf Hfw. apply in_app_or in Hf as [Hf|Hf]; auto.
    rewrite (H1 f Hf) in Hfw. discriminate.
  - rewrite select_wheel_none in H1, H2. apply select_wheel_none.
    intros f Hf. apply in_app_or in Hf as [Hf|Hf]; auto.
Qed.
